(** * Lazy sequences of [raybellis/Lazy]: a shallow embedding of [src/lazy.js]
    and of the programs of [src/test.js]

    A [Lazy] object wraps a generator function (its [Symbol.iterator]
    property) and a boolean [infinite] tag.  A generator object is a suspended
    coroutine; it is embedded as a state machine: a type of suspension points,
    the point where a fresh generator starts, and a function [resume] running
    the body up to the next observable action.  A loop iteration that yields
    nothing (the [continue] of [filter], [drop], [dropWhile]) is a [Skip]
    step, so [resume] is total even over sequences that never end; one call
    of [next()] is a run of [Skip]s closed by [Yield], [Done] or [Throw].

    Side effects of user code (a callback that counts its invocations, a
    producer that records what it computes) are embedded as a log of events
    written by [resume] and by callbacks.

    JavaScript numbers are embedded as [Z]; all numbers handled here are
    integers far below 2^53, where the two agree. *)

From Stdlib Require Import ZArith List Bool Lia.
Import ListNotations.
Open Scope Z_scope.
Set Warnings "-register-all".

(** ** Values, errors, events *)

Inductive value : Type :=
| VUndef
| VBool (b : bool)
| VNum (z : Z)
| VArr (l : list value).

(* ToBoolean on the values above *)
Definition truthy (v : value) : bool :=
  match v with
  | VUndef => false
  | VBool b => b
  | VNum z => negb (z =? 0)
  | VArr _ => true
  end.

(* [TypeError] and [RangeError] are the host's; [InfiniteSequenceError] is the
   only error class lazy.js declares (line 3). *)
Inductive error : Type := TypeError | RangeError | InfiniteSequenceError.

Inductive result (A : Type) : Type :=
| Ok (a : A)
| Err (e : error).
Arguments Ok {A} a.
Arguments Err {A} e.

Inductive event : Type :=
| Produced (v : value)
| Exhausted
| Called (args : list value).

(* A user function: it receives the argument list of the call, may write
   events, and returns a value. *)
Definition callback : Type := list value -> list event * value.

(* Something passed where a function is expected ([typeof x === 'function']). *)
Inductive arg : Type :=
| Fn (cb : callback)
| NotFn (v : value).

(** ** Generators as state machines *)

Inductive Step (S : Type) : Type :=
| Yield (v : value) (s : S)
| Skip (s : S)
| Done
| Throw (e : error).
Arguments Yield {S} v s.
Arguments Skip {S} s.
Arguments Done {S}.
Arguments Throw {S} e.

Record Gen : Type := mkGen {
  St : Type;
  start : St;
  resume : St -> list event * Step St
}.

(* class Lazy: [SI] is the [Symbol.iterator] property, a generator function
   without parameters, embedded as the generator it creates. *)
Record Lazy : Type := mkLazy {
  SI : Gen;
  infinite : bool
}.

(* constructor(iterator, infinite = false): an [undefined] second argument
   takes the default. *)
Definition new_Lazy (iterator : Gen) (infinite : option bool) : Lazy :=
  mkLazy iterator (match infinite with Some b => b | None => false end).

(* The objects handed to [cons], [zip] and [yield*]: a Lazy, an iterator
   object such as a generator object, or a plain value ([VArr] is a native
   array). *)
Inductive obj : Type :=
| OLazy (L : Lazy)
| OGen (g : Gen)
| OVal (v : value).

Definition array_iterator (xs : list value) : Gen :=
  {| St := list value;
     start := xs;
     resume := fun s => match s with
                        | [] => ([], Done)
                        | x :: r => ([], Yield x r)
                        end |}.

(* A generator whose body throws as soon as it runs. *)
Definition throwing (e : error) : Gen :=
  {| St := unit; start := tt; resume := fun _ => ([], Throw e) |}.

(* A generator that never comes back: what remains of a recursive definition
   unfolded beyond the given depth. *)
Definition diverge : Gen :=
  {| St := unit; start := tt; resume := fun _ => ([], Skip tt) |}.

(* A [Symbol.iterator] method takes its receiver [this].
   - a Lazy's is the generator function given to the constructor; none of the
     generator functions of lazy.js mentions [this];
   - an array's is [Array.prototype.values], which starts with
     ToObject(this) and so throws a TypeError on [undefined]; on an object
     without [length] it iterates over nothing;
   - an iterator object's returns [this]; when [this] is not an iterator the
     first [next()] on it is a TypeError. *)
Definition method : Type := obj -> result Gen.

Definition Array_values : method :=
  fun this => match this with
              | OVal VUndef => Err TypeError
              | OVal (VArr xs) => Ok (array_iterator xs)
              | _ => Ok (array_iterator [])
              end.

Definition Iterator_self : method :=
  fun this => match this with
              | OGen g => Ok g
              | _ => Err TypeError
              end.

(* x[SI]; [None] is [undefined]. *)
Definition get_SI (x : obj) : option method :=
  match x with
  | OLazy L => Some (fun _ => Ok (SI L))
  | OGen _ => Some Iterator_self
  | OVal (VArr _) => Some Array_values
  | OVal _ => None
  end.

Definition gen_of (r : result Gen) : Gen :=
  match r with
  | Ok g => g
  | Err e => throwing e
  end.

(* The iterator [for (k of x)] and [yield* x] work on: x[SI]() called on x. *)
Definition iterate (x : obj) : Gen :=
  match get_SI x with
  | Some m => gen_of (m x)
  | None => throwing TypeError
  end.

Definition lift_step {A B : Type} (f : A -> B) (r : Step A) : Step B :=
  match r with
  | Yield v s => Yield v (f s)
  | Skip s => Skip (f s)
  | Done => Done
  | Throw e => Throw e
  end.

(** ** Driving a generator *)

Inductive ending : Type :=
| Suspended      (* the requested number of elements was delivered *)
| Finished       (* next() answered done *)
| Raised (e : error)
| OutOfFuel.

Record outcome : Type := Out {
  log : list event;
  elems : list value;
  ends : ending
}.

Definition emit (l : list event) (vs : list value) (o : outcome) : outcome :=
  Out (l ++ log o) (vs ++ elems o) (ends o).

(* [pull g fuel k s]: call next() on the generator suspended at [s] until [k]
   elements have come out; [fuel] bounds the number of steps. *)
Fixpoint pull (g : Gen) (fuel : nat) (k : nat) (s : St g) {struct fuel} : outcome :=
  match k with
  | O => Out [] [] Suspended
  | S k' =>
      match fuel with
      | O => Out [] [] OutOfFuel
      | S fuel' =>
          match resume g s with
          | (l, Yield v s') => emit l [v] (pull g fuel' k' s')
          | (l, Skip s') => emit l [] (pull g fuel' k s')
          | (l, Done) => Out l [] Finished
          | (l, Throw e) => Out l [] (Raised e)
          end
      end
  end.

(* [drain g fuel s]: iterate to the end, as [[...x]] does. *)
Fixpoint drain (g : Gen) (fuel : nat) (s : St g) {struct fuel} : outcome :=
  match fuel with
  | O => Out [] [] OutOfFuel
  | S fuel' =>
      match resume g s with
      | (l, Yield v s') => emit l [v] (drain g fuel' s')
      | (l, Skip s') => emit l [] (drain g fuel' s')
      | (l, Done) => Out l [] Finished
      | (l, Throw e) => Out l [] (Raised e)
      end
  end.

Definition first (fuel k : nat) (L : Lazy) : outcome := pull (SI L) fuel k (start (SI L)).
Definition spread (fuel : nat) (L : Lazy) : outcome := drain (SI L) fuel (start (SI L)).

(* What a method that forces a sequence comes back with; [NoFuel] when the
   bound on the number of steps was reached first. *)
Inductive completion : Type :=
| Return (v : value)
| Raise (e : error)
| NoFuel.

(* The same for a method whose result is not one of the values above. *)
Inductive answer (A : Type) : Type :=
| Returns (a : A)
| Raises (e : error)
| Runs_out.
Arguments Returns {A} a.
Arguments Raises {A} e.
Arguments Runs_out {A}.

(* The number [length] returns: [Infinity] or a count. *)
Inductive count : Type :=
| Infinity
| Count (n : nat).

(** ** src/lazy.js *)

Module LazyJs.

Definition take_gen (n : Z) (orig : Gen) : Gen :=
  {| St := nat * St orig;
     start := (O, start orig);
     resume := fun '(i, s) =>
       match resume orig s with
       | (l, Yield k s') =>
           if Z.of_nat i <? n then (l, Yield k (S i, s')) else (l, Done)
       | (l, Skip s') => (l, Skip (i, s'))
       | (l, Done) => (l, Done)
       | (l, Throw e) => (l, Throw e)
       end |}.

Definition take (n : Z) (this : Lazy) : Lazy :=
  new_Lazy (take_gen n (SI this)) (Some false).

Definition drop_gen (n : Z) (orig : Gen) : Gen :=
  {| St := nat * St orig;
     start := (O, start orig);
     resume := fun '(i, s) =>
       match resume orig s with
       | (l, Yield k s') =>
           if Z.of_nat i <? n then (l, Skip (S i, s')) else (l, Yield k (S i, s'))
       | (l, Skip s') => (l, Skip (i, s'))
       | (l, Done) => (l, Done)
       | (l, Throw e) => (l, Throw e)
       end |}.

Definition drop (n : Z) (this : Lazy) : Lazy :=
  new_Lazy (drop_gen n (SI this)) (Some (infinite this)).

(* get head: the destructuring [let [ head ] = ...] asks the iterator for one
   element and binds [undefined] when there is none. *)
Definition head (fuel : nat) (this : Lazy) : list event * completion :=
  let o := first fuel 1 (take 1 this) in
  match ends o, elems o with
  | Suspended, v :: _ => (log o, Return v)
  | Finished, _ => (log o, Return VUndef)
  | Raised e, _ => (log o, Raise e)
  | _, _ => (log o, NoFuel)
  end.

Definition tail (this : Lazy) : Lazy := drop 1 this.

(* cb.call(ctx, k): one argument. *)
Fixpoint forEach_loop (g : Gen) (fuel : nat) (cb : arg) (s : St g)
  : list event * completion :=
  match fuel with
  | O => ([], NoFuel)
  | S fuel' =>
      match resume g s with
      | (l, Yield k s') =>
          match cb with
          | Fn f =>
              let (lc, _) := f [k] in
              let (lr, r) := forEach_loop g fuel' cb s' in
              (l ++ lc ++ lr, r)
          | NotFn _ => (l, Raise TypeError)
          end
      | (l, Skip s') =>
          let (lr, r) := forEach_loop g fuel' cb s' in (l ++ lr, r)
      | (l, Done) => (l, Return VUndef)
      | (l, Throw e) => (l, Raise e)
      end
  end.

Definition forEach (fuel : nat) (cb : arg) (this : Lazy) : list event * completion :=
  if infinite this then ([], Raise InfiniteSequenceError)
  else forEach_loop (SI this) fuel cb (start (SI this)).

Definition map_gen (cb : callback) (orig : Gen) : Gen :=
  {| St := St orig;
     start := start orig;
     resume := fun s =>
       match resume orig s with
       | (l, Yield k s') => let (lc, v) := cb [k] in (l ++ lc, Yield v s')
       | (l, Skip s') => (l, Skip s')
       | (l, Done) => (l, Done)
       | (l, Throw e) => (l, Throw e)
       end |}.

Definition map (cb : arg) (this : Lazy) : result Lazy :=
  match cb with
  | NotFn _ => Err TypeError
  | Fn f => Ok (new_Lazy (map_gen f (SI this)) (Some (infinite this)))
  end.

Definition filter_gen (pred : callback) (orig : Gen) : Gen :=
  {| St := St orig;
     start := start orig;
     resume := fun s =>
       match resume orig s with
       | (l, Yield k s') =>
           let (lc, v) := pred [k] in
           if truthy v then (l ++ lc, Yield k s') else (l ++ lc, Skip s')
       | (l, Skip s') => (l, Skip s')
       | (l, Done) => (l, Done)
       | (l, Throw e) => (l, Throw e)
       end |}.

Definition filter (pred : arg) (this : Lazy) : result Lazy :=
  match pred with
  | NotFn _ => Err TypeError
  | Fn p => Ok (new_Lazy (filter_gen p (SI this)) (Some (infinite this)))
  end.

(* prev = f(prev, current) over the tail *)
Fixpoint reduce_loop (g : Gen) (fuel : nat) (f : callback) (prev : value) (s : St g)
  : list event * completion :=
  match fuel with
  | O => ([], NoFuel)
  | S fuel' =>
      match resume g s with
      | (l, Yield current s') =>
          let (lc, v) := f [prev; current] in
          let (lr, r) := reduce_loop g fuel' f v s' in
          (l ++ lc ++ lr, r)
      | (l, Skip s') =>
          let (lr, r) := reduce_loop g fuel' f prev s' in (l ++ lr, r)
      | (l, Done) => (l, Return prev)
      | (l, Throw e) => (l, Raise e)
      end
  end.

Definition reduce (fuel : nat) (f : arg) (this : Lazy) : list event * completion :=
  match f with
  | NotFn _ => ([], Raise TypeError)
  | Fn f =>
      if infinite this then ([], Raise InfiniteSequenceError)
      else
        match head fuel this with
        | (lh, Return prev) =>
            let tail := tail this in
            let (lr, r) := reduce_loop (SI tail) fuel f prev (start (SI tail)) in
            (lh ++ lr, r)
        | (lh, r) => (lh, r)
        end
  end.

(* var take = true; ... take = take && pred(k) *)
Definition takeWhile_gen (pred : callback) (orig : Gen) : Gen :=
  {| St := bool * St orig;
     start := (true, start orig);
     resume := fun '(take, s) =>
       match resume orig s with
       | (l, Yield k s') =>
           if take then
             let (lc, v) := pred [k] in
             if truthy v then (l ++ lc, Yield k (true, s')) else (l ++ lc, Done)
           else (l, Done)
       | (l, Skip s') => (l, Skip (take, s'))
       | (l, Done) => (l, Done)
       | (l, Throw e) => (l, Throw e)
       end |}.

Definition takeWhile (pred : arg) (this : Lazy) : result Lazy :=
  match pred with
  | NotFn _ => Err TypeError
  | Fn p => Ok (new_Lazy (takeWhile_gen p (SI this)) (Some false))
  end.

(* var drop = true; ... drop = drop && pred(k) *)
Definition dropWhile_gen (pred : callback) (orig : Gen) : Gen :=
  {| St := bool * St orig;
     start := (true, start orig);
     resume := fun '(drop, s) =>
       match resume orig s with
       | (l, Yield k s') =>
           if drop then
             let (lc, v) := pred [k] in
             if truthy v then (l ++ lc, Skip (true, s'))
             else (l ++ lc, Yield k (false, s'))
           else (l, Yield k (false, s'))
       | (l, Skip s') => (l, Skip (drop, s'))
       | (l, Done) => (l, Done)
       | (l, Throw e) => (l, Throw e)
       end |}.

Definition dropWhile (pred : arg) (this : Lazy) : result Lazy :=
  match pred with
  | NotFn _ => Err TypeError
  | Fn p => Ok (new_Lazy (dropWhile_gen p (SI this)) (Some (infinite this)))
  end.

(* function*() { yield* f(); }  The call f() happens when the generator is
   first resumed; [f] may throw or return something that is not iterable. *)
Definition delegate (f : unit -> result obj) : Gen :=
  let g := match f tt with Ok x => iterate x | Err e => throwing e end in
  {| St := option (St g);
     start := None;
     resume := fun s =>
       match s with
       | None => ([], Skip (Some (start g)))
       | Some s' => let (l, r) := resume g s' in (l, lift_step Some r)
       end |}.

(* static from(f, infinite = false); [None] is an [f] that is not a function. *)
Definition from (f : option (unit -> result obj)) (infinite : option bool) : result Lazy :=
  match f with
  | None => Err TypeError
  | Some f => Ok (new_Lazy (delegate f) infinite)
  end.

(* function*() { yield a; yield* b; } *)
Definition cons_gen (a : value) (b : obj) : Gen :=
  let g := iterate b in
  {| St := option (St g);
     start := None;
     resume := fun s =>
       match s with
       | None => ([], Yield a (Some (start g)))
       | Some s' => let (l, r) := resume g s' in (l, lift_step Some r)
       end |}.

(* x.infinite; [None] is [undefined] *)
Definition get_infinite (x : obj) : option bool :=
  match x with
  | OLazy L => Some (infinite L)
  | _ => None
  end.

(* static cons(a, b, infinite): an override that is [undefined] is replaced
   by b.infinite when b is a Lazy. *)
Definition cons (a : value) (b : obj) (infinite : option bool) : result Lazy :=
  match get_SI b with
  | None => Err TypeError
  | Some _ =>
      let infinite :=
        match infinite, b with
        | None, OLazy _ => get_infinite b
        | _, _ => infinite
        end in
      Ok (new_Lazy (cons_gen a b) infinite)
  end.

Definition naturals_gen (n : Z) : Gen :=
  {| St := Z; start := n; resume := fun i => ([], Yield (VNum i) (i + 1)) |}.

(* static naturals(n = 0) *)
Definition naturals (n : value) : result Lazy :=
  match n with
  | VUndef => Ok (new_Lazy (naturals_gen 0) (Some true))
  | VNum n => if n <? 0 then Err RangeError
              else Ok (new_Lazy (naturals_gen n) (Some true))
  | _ => Err TypeError
  end.

(* x && y on the values an [infinite] property can take *)
Definition js_and (x y : option bool) : option bool :=
  match x with
  | Some true => y
  | _ => x
  end.

Inductive zip_state (A B : Type) : Type :=
| ZA (a : A) (b : B)                        (* inside ia.next() *)
| ZB (na : option (value * A)) (b : B).     (* inside ib.next() *)
Arguments ZA {A B} a b.
Arguments ZB {A B} na b.

Definition zip_loop (ia ib : Gen) : Gen :=
  {| St := zip_state (St ia) (St ib);
     start := ZA (start ia) (start ib);
     resume := fun s =>
       match s with
       | ZA a b =>
           match resume ia a with
           | (l, Yield v a') => (l, Skip (ZB (Some (v, a')) b))
           | (l, Skip a') => (l, Skip (ZA a' b))
           | (l, Done) => (l, Skip (ZB None b))
           | (l, Throw e) => (l, Throw e)
           end
       | ZB na b =>
           match resume ib b with
           | (l, Yield w b') =>
               match na with
               | Some (v, a') => (l, Yield (VArr [v; w]) (ZA a' b'))
               | None => (l, Done)
               end
           | (l, Skip b') => (l, Skip (ZB na b'))
           | (l, Done) => (l, Done)
           | (l, Throw e) => (l, Throw e)
           end
       end |}.

(* var ia = sa(); var ib = sb();  Both are plain calls: [this] is undefined. *)
Definition zip_gen (sa sb : method) : Gen :=
  match sa (OVal VUndef) with
  | Err e => throwing e
  | Ok ia =>
      match sb (OVal VUndef) with
      | Err e => throwing e
      | Ok ib => zip_loop ia ib
      end
  end.

(* static zip(a, b) *)
Definition zip (a b : obj) : result Lazy :=
  match get_SI a, get_SI b with
  | Some sa, Some sb =>
      Ok (new_Lazy (zip_gen sa sb) (js_and (get_infinite a) (get_infinite b)))
  | _, _ => Err TypeError
  end.

(* get length: n++ for every element *)
Fixpoint length_loop (g : Gen) (fuel : nat) (n : nat) (s : St g)
  : list event * answer count :=
  match fuel with
  | O => ([], Runs_out)
  | S fuel' =>
      match resume g s with
      | (l, Yield _ s') =>
          let (lr, r) := length_loop g fuel' (S n) s' in (l ++ lr, r)
      | (l, Skip s') =>
          let (lr, r) := length_loop g fuel' n s' in (l ++ lr, r)
      | (l, Done) => (l, Returns (Count n))
      | (l, Throw e) => (l, Raises e)
      end
  end.

Definition get_length (fuel : nat) (this : Lazy) : list event * answer count :=
  if infinite this then ([], Returns Infinity)
  else length_loop (SI this) fuel O (start (SI this)).

(* ([a, b]) => f(a, b): the parameter is destructured as an array; missing
   positions are [undefined].  zip only hands arrays to it; destructuring
   anything else, which would throw, is not embedded. *)
Definition unpair (f : callback) : callback :=
  fun args =>
    match args with
    | VArr (x :: y :: _) :: _ => f [x; y]
    | VArr [x] :: _ => f [x; VUndef]
    | VArr [] :: _ => f [VUndef; VUndef]
    | _ => ([], VUndef)
    end.

(* static zipWith(f, a, b); [f] is taken to be a function. *)
Definition zipWith (f : callback) (a b : obj) : result Lazy :=
  match zip a b with
  | Ok z => map (Fn (unpair f)) z
  | Err e => Err e
  end.

(* static lazy(): function*() { yield* orig; } around the receiver, and no
   second argument for the constructor. *)
Definition lazy (this : obj) : Lazy :=
  new_Lazy (delegate (fun _ => Ok this)) None.

End LazyJs.

(** ** The variant of the class listed after the demonstrations in
    src/test.js (lines 51-274): no [infinite] tag, and callbacks receive an
    index. *)

Module Variant.

(* let index = 0; ... yield cb.call(ctx, k, index++) *)
Definition map_gen (cb : callback) (orig : Gen) : Gen :=
  {| St := nat * St orig;
     start := (O, start orig);
     resume := fun '(index, s) =>
       match resume orig s with
       | (l, Yield k s') =>
           let (lc, v) := cb [k; VNum (Z.of_nat index)] in
           (l ++ lc, Yield v (S index, s'))
       | (l, Skip s') => (l, Skip (index, s'))
       | (l, Done) => (l, Done)
       | (l, Throw e) => (l, Throw e)
       end |}.

Definition map (cb : arg) (this : Gen) : result Gen :=
  match cb with
  | NotFn _ => Err TypeError
  | Fn f => Ok (map_gen f this)
  end.

(* let index = 0; ... if (pred.call(ctx, k, index++)) yield k *)
Definition filter_gen (pred : callback) (orig : Gen) : Gen :=
  {| St := nat * St orig;
     start := (O, start orig);
     resume := fun '(index, s) =>
       match resume orig s with
       | (l, Yield k s') =>
           let (lc, v) := pred [k; VNum (Z.of_nat index)] in
           if truthy v then (l ++ lc, Yield k (S index, s'))
           else (l ++ lc, Skip (S index, s'))
       | (l, Skip s') => (l, Skip (index, s'))
       | (l, Done) => (l, Done)
       | (l, Throw e) => (l, Throw e)
       end |}.

Definition filter (pred : arg) (this : Gen) : result Gen :=
  match pred with
  | NotFn _ => Err TypeError
  | Fn p => Ok (filter_gen p this)
  end.

(* take(n) and drop(n): the generators of lines 132-160 *)
Definition take_gen (n : Z) (orig : Gen) : Gen :=
  {| St := nat * St orig;
     start := (O, start orig);
     resume := fun '(i, s) =>
       match resume orig s with
       | (l, Yield k s') =>
           if Z.of_nat i <? n then (l, Yield k (S i, s')) else (l, Done)
       | (l, Skip s') => (l, Skip (i, s'))
       | (l, Done) => (l, Done)
       | (l, Throw e) => (l, Throw e)
       end |}.

Definition drop_gen (n : Z) (orig : Gen) : Gen :=
  {| St := nat * St orig;
     start := (O, start orig);
     resume := fun '(index, s) =>
       match resume orig s with
       | (l, Yield k s') =>
           if Z.of_nat index <? n then (l, Skip (S index, s'))
           else (l, Yield k (S index, s'))
       | (l, Skip s') => (l, Skip (index, s'))
       | (l, Done) => (l, Done)
       | (l, Throw e) => (l, Throw e)
       end |}.

(* get head *)
Definition head (fuel : nat) (this : Gen) : list event * completion :=
  let o := pull (take_gen 1 this) fuel 1 (start (take_gen 1 this)) in
  match ends o, elems o with
  | Suspended, v :: _ => (log o, Return v)
  | Finished, _ => (log o, Return VUndef)
  | Raised e, _ => (log o, Raise e)
  | _, _ => (log o, NoFuel)
  end.

Definition tail (this : Gen) : Gen := drop_gen 1 this.

(* let index = 0; for (let k of this) cb.call(ctx, k, index++); *)
Fixpoint forEach_loop (g : Gen) (fuel : nat) (cb : arg) (index : nat) (s : St g)
  : list event * completion :=
  match fuel with
  | O => ([], NoFuel)
  | S fuel' =>
      match resume g s with
      | (l, Yield k s') =>
          match cb with
          | Fn f =>
              let (lc, _) := f [k; VNum (Z.of_nat index)] in
              let (lr, r) := forEach_loop g fuel' cb (S index) s' in
              (l ++ lc ++ lr, r)
          | NotFn _ => (l, Raise TypeError)
          end
      | (l, Skip s') =>
          let (lr, r) := forEach_loop g fuel' cb index s' in (l ++ lr, r)
      | (l, Done) => (l, Return VUndef)
      | (l, Throw e) => (l, Raise e)
      end
  end.

(* No test of a tag comes first. *)
Definition forEach (fuel : nat) (cb : arg) (this : Gen) : list event * completion :=
  forEach_loop this fuel cb O (start this).

(* let index = 0; for (let current of tail) prev = f(prev, current, index++); *)
Fixpoint reduce_loop (g : Gen) (fuel : nat) (f : callback) (prev : value)
    (index : nat) (s : St g) : list event * completion :=
  match fuel with
  | O => ([], NoFuel)
  | S fuel' =>
      match resume g s with
      | (l, Yield current s') =>
          let (lc, v) := f [prev; current; VNum (Z.of_nat index)] in
          let (lr, r) := reduce_loop g fuel' f v (S index) s' in
          (l ++ lc ++ lr, r)
      | (l, Skip s') =>
          let (lr, r) := reduce_loop g fuel' f prev index s' in (l ++ lr, r)
      | (l, Done) => (l, Return prev)
      | (l, Throw e) => (l, Raise e)
      end
  end.

Definition reduce (fuel : nat) (f : arg) (this : Gen) : list event * completion :=
  match f with
  | NotFn _ => ([], Raise TypeError)
  | Fn f =>
      match head fuel this with
      | (lh, Return prev) =>
          let tail := tail this in
          let (lr, r) := reduce_loop tail fuel f prev O (start tail) in
          (lh ++ lr, r)
      | (lh, r) => (lh, r)
      end
  end.

(* static naturals(n = 0), lines 222-238: the same tests, no tag *)
Definition naturals_gen (n : Z) : Gen :=
  {| St := Z; start := n; resume := fun i => ([], Yield (VNum i) (i + 1)) |}.

Definition naturals (n : value) : result Gen :=
  match n with
  | VUndef => Ok (naturals_gen 0)
  | VNum n => if n <? 0 then Err RangeError else Ok (naturals_gen n)
  | _ => Err TypeError
  end.

End Variant.

(** ** src/test.js, lines 1-50 *)

Module TestJs.
Import LazyJs.

(* A method call on the result of a call that may have thrown. *)
Definition bind {A B : Type} (r : result A) (k : A -> result B) : result B :=
  match r with
  | Ok a => k a
  | Err e => Err e
  end.

Definition as_obj (r : result Lazy) : result obj :=
  bind r (fun L => Ok (OLazy L)).

(* function* f(a, b) { yield* Lazy.cons(a, f(b, a + b)); }
   The call f(b, a + b) makes a generator object and runs nothing of its body.
   [depth] bounds how many calls of f are unfolded. *)
Fixpoint fibs_f (depth : nat) (a b : Z) : Gen :=
  match depth with
  | O => diverge
  | S d => delegate (fun _ => as_obj (cons (VNum a) (OGen (fibs_f d b (a + b))) None))
  end.

(* return Lazy.from(() => f(1, 1), true); *)
Definition fibs (depth : nat) : result Lazy :=
  from (Some (fun _ => Ok (OGen (fibs_f depth 1 1)))) (Some true).

(* function f(a, b) { return Lazy.cons(a, Lazy.from(() => f(b, a + b)), true); } *)
Fixpoint fibs2_f (depth : nat) (a b : Z) : result Lazy :=
  match depth with
  | O => Ok (new_Lazy diverge None)
  | S d =>
      bind (from (Some (fun _ => as_obj (fibs2_f d b (a + b)))) None)
           (fun rest => cons (VNum a) (OLazy rest) (Some true))
  end.

Definition fibs2 (depth : nat) : result Lazy := fibs2_f depth 1 1.

(* let sum = (a, b) => a + b; only the addition of numbers is embedded. *)
Definition sum : callback :=
  fun args => match args with
              | VNum a :: VNum b :: _ => ([], VNum (a + b))
              | _ => ([], VUndef)
              end.

(* let isEven = n => n % 2 === 0; *)
Definition isEven : callback :=
  fun args => match args with
              | VNum n :: _ => ([], VBool (Z.rem n 2 =? 0))
              | _ => ([], VBool false)
              end.

(* n => n < 4000000 *)
Definition below4M : callback :=
  fun args => match args with
              | VNum n :: _ => ([], VBool (n <? 4000000))
              | _ => ([], VBool false)
              end.

(* seq.takeWhile(n => n < 4000000).filter(isEven).reduce(sum) *)
Definition euler2_of (fuel : nat) (seq : result Lazy) : result (list event * completion) :=
  bind seq (fun s =>
  bind (takeWhile (Fn below4M) s) (fun s1 =>
  bind (filter (Fn isEven) s1) (fun s2 =>
  Ok (reduce fuel (Fn sum) s2)))).

Definition euler2 (depth fuel : nat) : result (list event * completion) :=
  euler2_of fuel (fibs depth).

(* let a = Lazy.cons(1, [2, 3, 4, 5]); *)
Definition a : result Lazy :=
  cons (VNum 1) (OVal (VArr [VNum 2; VNum 3; VNum 4; VNum 5])) None.

(* x => x % head !== 0 on numbers.  A remainder by 0 is NaN, and so is any
   remainder by a [head] that is [undefined]; NaN differs from 0. *)
Definition not_multiple (head : value) : callback :=
  fun args =>
    match head, args with
    | VNum h, VNum x :: _ =>
        ([], VBool (if h =? 0 then true else negb (Z.rem x h =? 0)))
    | _, _ => ([], VBool true)
    end.

(* What a function body is for the generator that called it: a value, an
   exception, or a call that does not come back. *)
Definition thunk_of (r : answer Lazy) : result obj :=
  match r with
  | Returns L => Ok (OLazy L)
  | Raises e => Err e
  | Runs_out => Ok (OGen diverge)
  end.

(* function* sieve(a) {
     let head = a.head;
     let tail = a.tail.filter(x => x % head !== 0);
     yield* Lazy.cons(head, sieve(tail));
   }
   [depth] bounds the calls of sieve that are unfolded and [fuel] the steps of
   each a.head.  The sequences of this program write no events, so the log of
   a.head is empty and is not kept. *)
Fixpoint sieve (depth fuel : nat) (a : Lazy) : Gen :=
  match depth with
  | O => diverge
  | S d =>
      delegate (fun _ =>
        match head fuel a with
        | (_, Return head) =>
            bind (filter (Fn (not_multiple head)) (tail a)) (fun tail =>
            as_obj (cons head (OGen (sieve d fuel tail)) None))
        | (_, Raise e) => Err e
        | (_, NoFuel) => Ok (OGen diverge)
        end)
  end.

(* return Lazy.from(() => sieve(Lazy.naturals(2)), true); *)
Definition primes (depth fuel : nat) : result Lazy :=
  from (Some (fun _ =>
          bind (naturals (VNum 2)) (fun n => Ok (OGen (sieve depth fuel n)))))
       (Some true).

Definition answer_of {A : Type} (r : result A) : answer A :=
  match r with
  | Ok a => Returns a
  | Err e => Raises e
  end.

(* function sieve(a) {
     let head = a.head;
     let tail = a.tail.filter(x => x % head !== 0);
     return Lazy.cons(head, Lazy.from(() => sieve(tail)), true);
   } *)
Fixpoint sieve2 (depth fuel : nat) (a : Lazy) : answer Lazy :=
  match depth with
  | O => Runs_out
  | S d =>
      match head fuel a with
      | (_, Return head) =>
          answer_of
            (bind (filter (Fn (not_multiple head)) (tail a)) (fun tail =>
             bind (from (Some (fun _ => thunk_of (sieve2 d fuel tail))) None)
                  (fun rest => cons head (OLazy rest) (Some true))))
      | (_, Raise e) => Raises e
      | (_, NoFuel) => Runs_out
      end
  end.

(* return sieve(Lazy.naturals(2)); *)
Definition primes2 (depth fuel : nat) : answer Lazy :=
  match naturals (VNum 2) with
  | Ok n => sieve2 depth fuel n
  | Err e => Raises e
  end.

End TestJs.

(** ** src/primes.js *)

Module PrimesJs.
Import LazyJs.

(* function sieve(a) {
     let head = a.head;
     let tail = a.tail.filter(x => x % head !== 0);
     return Lazy.cons(head, Lazy.from(() => sieve(tail)));
   } *)
Fixpoint sieve (depth fuel : nat) (a : Lazy) : answer Lazy :=
  match depth with
  | O => Runs_out
  | S d =>
      match head fuel a with
      | (_, Return head) =>
          TestJs.answer_of
            (TestJs.bind (filter (Fn (TestJs.not_multiple head)) (tail a)) (fun tail =>
             TestJs.bind (from (Some (fun _ => TestJs.thunk_of (sieve d fuel tail))) None)
                  (fun rest => cons head (OLazy rest) None)))
      | (_, Raise e) => Raises e
      | (_, NoFuel) => Runs_out
      end
  end.

(* return sieve(Lazy.naturals(2)); *)
Definition primes (depth fuel : nat) : answer Lazy :=
  match naturals (VNum 2) with
  | Ok n => sieve depth fuel n
  | Err e => Raises e
  end.

End PrimesJs.

(** ** Instrumentation *)

(* The same sequence, recording every answer of its cursor. *)
Definition spy_gen (orig : Gen) : Gen :=
  {| St := St orig;
     start := start orig;
     resume := fun s =>
       match resume orig s with
       | (l, Yield v s') => (l ++ [Produced v], Yield v s')
       | (l, Skip s') => (l, Skip s')
       | (l, Done) => (l ++ [Exhausted], Done)
       | (l, Throw e) => (l, Throw e)
       end |}.

Definition spy (L : Lazy) : Lazy := mkLazy (spy_gen (SI L)) (infinite L).

(* The same function, recording the arguments of every call. *)
Definition watch (f : list value -> value) : callback :=
  fun args => ([Called args], f args).

(* A function that writes nothing. *)
Definition quiet (f : list value -> value) : callback :=
  fun args => ([], f args).

(* A sequence whose cursor writes nothing. *)
Definition silent (g : Gen) : Prop :=
  forall s, fst (resume g s) = [].

(* Lazy.naturals(n) for a number n that is not negative. *)
Definition nats (n : Z) : Lazy := new_Lazy (LazyJs.naturals_gen n) (Some true).

(* Lazy.from(() => []) *)
Definition nothing : Lazy := new_Lazy (LazyJs.delegate (fun _ => Ok (OVal (VArr [])))) None.

(** ** Vocabulary of the statements *)

(* An array of three elements. *)
Definition three : list value := [VNum 7; VNum 8; VNum 9].

(* The argument lists [x, i], [x', i + 1], ... *)
Fixpoint indexed (i : nat) (xs : list value) : list (list value) :=
  match xs with
  | [] => []
  | x :: r => [x; VNum (Z.of_nat i)] :: indexed (S i) r
  end.

(* The elements a predicate of element and index keeps. *)
Fixpoint kept (f : list value -> value) (i : nat) (xs : list value) : list value :=
  match xs with
  | [] => []
  | x :: r => if truthy (f [x; VNum (Z.of_nat i)]) then x :: kept f (S i) r
              else kept f (S i) r
  end.

(* (x, i) => i *)
Definition second_argument (args : list value) : value := nth 1 args VUndef.

(* x => x < n *)
Definition below (n : Z) (args : list value) : value :=
  match args with
  | VNum x :: _ => VBool (x <? n)
  | _ => VBool false
  end.

(* The pairs [x, y] of two lists taken position by position. *)
Definition pairs (xs ys : list value) : list value :=
  List.map (fun xy => VArr [fst xy; snd xy]) (combine xs ys).







(* Two functions in a row, as one: x => g(f(x)). *)
Definition and_then (f g : callback) : callback :=
  fun args =>
    let (lf, v) := f args in
    let (lg, w) := g [v] in
    (lf ++ lg, w).

(* Two predicates in a row, as one: x => p(x) && q(x). *)
Definition both (p q : callback) : callback :=
  fun args =>
    let (lp, v) := p args in
    if truthy v then let (lq, w) := q args in (lp ++ lq, w) else (lp, v).

(* The numbers n, n + 1, ..., n + k - 1. *)
Fixpoint upfrom (n : Z) (k : nat) : list value :=
  match k with
  | O => []
  | S k' => VNum n :: upfrom (n + 1) k'
  end.

(* The argument lists of the calls f(prev, x, i) of a fold that counts its
   steps from [i], and what the fold comes to. *)
Fixpoint fold_args (f : list value -> value) (prev : value) (i : nat)
    (xs : list value) : list (list value) :=
  match xs with
  | [] => []
  | x :: r =>
      [prev; x; VNum (Z.of_nat i)]
        :: fold_args f (f [prev; x; VNum (Z.of_nat i)]) (S i) r
  end.

Fixpoint fold_value (f : list value -> value) (prev : value) (i : nat)
    (xs : list value) : value :=
  match xs with
  | [] => prev
  | x :: r => fold_value f (f [prev; x; VNum (Z.of_nat i)]) (S i) r
  end.

(* What the end of a traversal makes of a method that returns [v] at the
   end. *)
Definition finish (v : value) (e : ending) : completion :=
  match e with
  | Finished => Return v
  | Raised err => Raise err
  | _ => NoFuel
  end.

(* A run that delivered what was asked for, or reached the end. *)
Definition completes (e : ending) : bool :=
  match e with
  | Suspended | Finished => true
  | _ => false
  end.

(* A function that writes nothing, whatever it is called on. *)
Definition mute (cb : callback) : Prop :=
  forall args, fst (cb args) = [].

(* Lazy.from(() => Lazy.naturals(n)) for a number n that is not negative. *)
Definition wrapped_nats (n : Z) : Lazy :=
  new_Lazy (LazyJs.delegate (fun _ => Ok (OLazy (nats n)))) None.

(* The first thirty prime numbers. *)
Definition thirty_primes : list value :=
  List.map VNum
    [2; 3; 5; 7; 11; 13; 17; 19; 23; 29; 31; 37; 41; 43; 47; 53; 59; 61; 67; 71;
     73; 79; 83; 89; 97; 101; 103; 107; 109; 113].

(* a, b, a + b, a + 2b, ...: [k] numbers, each the sum of the two before. *)
Fixpoint fibseq (a b : Z) (k : nat) : list value :=
  match k with
  | O => []
  | S k' => VNum a :: fibseq b (a + b) k'
  end.

(* Up to this bound, the integers are numbers of the host, and [i++] is the
   successor. *)
Definition max_exact : Z := 2 ^ 53.

(* What a cursor over Lazy.from(f) delegates to once [f] has been called. *)
Definition body_of (f : unit -> result obj) : Gen :=
  match f tt with
  | Ok x => iterate x
  | Err e => throwing e
  end.

(** * Properties *)

Import LazyJs.

Lemma naturals_nats (n : Z) : 0 <= n -> naturals (VNum n) = Ok (nats n).
Proof.
  intros Hn. unfold naturals.
  destruct (n <? 0) eqn:E; [apply Z.ltb_lt in E; lia | reflexivity].
Qed.

(** ** Forcing a sequence tagged as infinite *)

(** C1. On every sequence whose [infinite] tag is true, [forEach] and [reduce]
    (given a function) raise InfiniteSequenceError whatever the number of steps
    allowed, zero included, and with an empty log: no step of the sequence's
    cursor was run and no callback was called.  On naturals(0).take(5) both
    return: [forEach] calls its callback on 0, 1, 2, 3, 4 and on nothing else,
    and [reduce] with addition folds the same five elements into 10. *)
Theorem C1_unbounded_guard :
  (forall (g : Gen) (fuel : nat) (cb : arg) (f : callback),
      forEach fuel cb (mkLazy g true) = ([], Raise InfiniteSequenceError)
      /\ reduce fuel (Fn f) (mkLazy g true) = ([], Raise InfiniteSequenceError))
  /\ naturals (VNum 0) = Ok (nats 0)
  /\ infinite (nats 0) = true
  /\ (forall (fuel : nat) (f : list value -> value),
         forEach (6 + fuel) (Fn (watch f)) (take 5 (nats 0))
         = ([Called [VNum 0]; Called [VNum 1]; Called [VNum 2];
             Called [VNum 3]; Called [VNum 4]], Return VUndef))
  /\ (forall fuel : nat,
         reduce (6 + fuel) (Fn (watch (fun args => snd (TestJs.sum args)))) (take 5 (nats 0))
         = ([Called [VNum 0; VNum 1]; Called [VNum 1; VNum 2];
             Called [VNum 3; VNum 3]; Called [VNum 6; VNum 4]], Return (VNum 10))).
Proof.
  repeat split; intros; reflexivity.
Qed.

(** ** Sequences without elements *)

Lemma take1_of_empty (g : Gen) (fuel : nat) :
  forall (l : list event) (i : nat) (s : St g),
    drain g fuel s = Out l [] Finished ->
    pull (take_gen 1 g) fuel 1 (i, s) = Out l [] Finished.
Proof.
  induction fuel as [|fuel IH]; intros l i s H; simpl in *; [discriminate|].
  destruct (resume g s) as [l0 [v s'|s'| |e]]; simpl in *.
  - destruct (drain g fuel s'); discriminate.
  - destruct (drain g fuel s') as [l1 e1 n1] eqn:D. unfold emit in H; simpl in H.
    injection H as Hl He Hn; subst.
    rewrite (IH l1 i s' D). reflexivity.
  - exact H.
  - exact H.
Qed.

Lemma reduce_loop_of_empty (g : Gen) (f : callback) (prev : value) (fuel : nat) :
  forall (l : list event) (i : nat) (s : St g),
    drain g fuel s = Out l [] Finished ->
    reduce_loop (drop_gen 1 g) fuel f prev (i, s) = (l, Return prev).
Proof.
  induction fuel as [|fuel IH]; intros l i s H; simpl in *; [discriminate|].
  destruct (resume g s) as [l0 [v s'|s'| |e]]; simpl in *.
  - destruct (drain g fuel s'); discriminate.
  - destruct (drain g fuel s') as [l1 e1 n1] eqn:D. unfold emit in H; simpl in H.
    injection H as Hl He Hn; subst.
    rewrite (IH l1 i s' D). reflexivity.
  - injection H as Hl; subst. reflexivity.
  - discriminate.
Qed.

(** C2 (as the code has it).  lazy.js has no error for an empty sequence:
    on every sequence that is not tagged infinite and whose cursor ends
    without an element, [head] returns [undefined], and [reduce], given a
    function, returns [undefined] too, after walking the empty sequence once
    more for the tail and without calling the function. *)
Theorem C2_empty_gives_undefined (g : Gen) (f : list value -> value)
    (fuel : nat) (l : list event) :
  drain g fuel (start g) = Out l [] Finished ->
  head fuel (mkLazy g false) = (l, Return VUndef)
  /\ reduce fuel (Fn (watch f)) (mkLazy g false) = (l ++ l, Return VUndef).
Proof.
  intros H.
  assert (Hh : head fuel (mkLazy g false) = (l, Return VUndef)).
  { unfold head, first, take; simpl.
    rewrite (take1_of_empty g fuel l O (start g) H). reflexivity. }
  split; [exact Hh|].
  unfold reduce. simpl infinite. cbv iota. rewrite Hh.
  unfold tail, drop; simpl.
  rewrite (reduce_loop_of_empty g (watch f) VUndef fuel l O (start g) H).
  reflexivity.
Qed.

Lemma C2_empty_gives_undefined_witness :
  spread 2 nothing = Out [] [] Finished
  /\ head 2 nothing = ([], Return VUndef)
  /\ reduce 2 (Fn (watch (fun _ => VNum 7))) nothing = ([], Return VUndef).
Proof.
  split; [reflexivity|].
  apply (C2_empty_gives_undefined (SI nothing) (fun _ => VNum 7) 2 []).
  reflexivity.
Defined.

(** C2 (as stated) fails: on the empty sequence Lazy.from(() => []), whose tag
    is false, neither [head] nor [reduce] raises any error, however many steps
    are allowed; both return [undefined]. *)
Lemma C2_counterexample :
  infinite nothing = false
  /\ spread 2 nothing = Out [] [] Finished
  /\ head 2 nothing = ([], Return VUndef)
  /\ reduce 2 (Fn TestJs.sum) nothing = ([], Return VUndef)
  /\ (forall (fuel : nat) (l : list event) (e : error),
         head fuel nothing <> (l, Raise e)
         /\ reduce fuel (Fn TestJs.sum) nothing <> (l, Raise e)).
Proof.
  repeat split; try reflexivity.
  - destruct fuel as [|[|fuel]]; discriminate.
  - destruct fuel as [|[|fuel]]; discriminate.
Qed.

(** ** Tags of the bounding combinators *)

(** C5. Whatever the sequence, the number [n] and the function [p], the
    sequences returned by take(n) and takeWhile(p) carry the tag false; this
    includes takeWhile(() => true) over the naturals, although that sequence
    delivers as many elements as are asked for. *)
Theorem C5_take_takeWhile_tag_false :
  (forall (this : Lazy) (n : Z), infinite (take n this) = false)
  /\ (forall (this : Lazy) (p : callback),
         exists L, takeWhile (Fn p) this = Ok L /\ infinite L = false)
  /\ (forall (this : Lazy) (v : value), takeWhile (NotFn v) this = Err TypeError)
  /\ (exists L, takeWhile (Fn (quiet (fun _ => VBool true))) (nats 0) = Ok L
               /\ infinite L = false
               /\ forall k : nat,
                    ends (first k k L) = Suspended
                    /\ length (elems (first k k L)) = k).
Proof.
  split; [reflexivity|].
  split; [intros this p; eexists; split; reflexivity|].
  split; [reflexivity|].
  eexists; split; [reflexivity|]. split; [reflexivity|].
  unfold first; simpl.
  assert (H : forall (k : nat) (i : Z),
             ends (pull (takeWhile_gen (quiet (fun _ => VBool true)) (naturals_gen 0)) k k (true, i))
             = Suspended
             /\ length (elems (pull (takeWhile_gen (quiet (fun _ => VBool true)) (naturals_gen 0)) k k (true, i))) = k).
  { induction k as [|k IH]; intros i; simpl; [split; reflexivity|].
    destruct (IH (i + 1)) as [He Hl]. rewrite He, Hl. split; reflexivity. }
  intros k. apply H.
Qed.

(** ** cons *)

Lemma cons_rest_pull (a : value) (b : obj) (fuel : nat) :
  forall (k : nat) (s : St (iterate b)),
    pull (cons_gen a b) fuel k (Some s) = pull (iterate b) fuel k s.
Proof.
  induction fuel as [|fuel IH]; intros k s; destruct k as [|k]; simpl; try reflexivity.
  destruct (resume (iterate b) s) as [l [v s'|s'| |e]]; simpl;
    rewrite ?IH; reflexivity.
Qed.

Lemma cons_rest_drain (a : value) (b : obj) (fuel : nat) :
  forall s : St (iterate b),
    drain (cons_gen a b) fuel (Some s) = drain (iterate b) fuel s.
Proof.
  induction fuel as [|fuel IH]; intros s; simpl; try reflexivity.
  destruct (resume (iterate b) s) as [l [v s'|s'| |e]]; simpl;
    rewrite ?IH; reflexivity.
Qed.

(** C6. cons(a, b, infinite) raises a TypeError when b has no
    [Symbol.iterator] property.  Otherwise it returns a sequence that delivers
    [a] and then what iterating over [b] delivers; its tag is the third
    argument when one is given, else the tag of [b] when [b] is a Lazy, else
    false.  cons(1, [2, 3, 4, 5]) spreads to [1, 2, 3, 4, 5] and is tagged
    false. *)
Theorem C6_cons :
  (forall (a : value) (b : obj) (o : option bool),
      get_SI b = None -> cons a b o = Err TypeError)
  /\ (forall (a : value) (b : obj) (o : option bool),
        get_SI b <> None ->
        exists L,
          cons a b o = Ok L
          /\ infinite L = match o with
                          | Some t => t
                          | None => match b with
                                    | OLazy B => infinite B
                                    | _ => false
                                    end
                          end
          /\ forall fuel k : nat,
               first (S fuel) (S k) L
               = emit [] [a] (pull (iterate b) fuel k (start (iterate b)))
               /\ spread (S fuel) L
                  = emit [] [a] (drain (iterate b) fuel (start (iterate b))))
  /\ (exists L, TestJs.a = Ok L
                /\ infinite L = false
                /\ forall fuel : nat,
                     spread (6 + fuel) L
                     = Out [] [VNum 1; VNum 2; VNum 3; VNum 4; VNum 5] Finished).
Proof.
  split; [|split].
  - intros a b o H. unfold cons. rewrite H. reflexivity.
  - intros a b o H. unfold cons.
    destruct (get_SI b) as [m|] eqn:E; [|contradiction].
    eexists. split; [reflexivity|]. split.
    + destruct o as [t|]; [reflexivity|]. destruct b; reflexivity.
    + intros fuel k. unfold first, spread. simpl.
      rewrite cons_rest_pull, cons_rest_drain. split; reflexivity.
  - eexists. split; [reflexivity|]. split; [reflexivity|].
    intros fuel. reflexivity.
Qed.

Lemma C6_cons_witness :
  (get_SI (OVal (VNum 7)) = None
   /\ cons (VNum 1) (OVal (VNum 7)) None = Err TypeError)
  /\ (get_SI (OLazy (nats 2)) <> None
      /\ exists L,
           cons (VNum 1) (OLazy (nats 2)) None = Ok L
           /\ infinite L = true
           /\ forall fuel k : nat,
                first (S fuel) (S k) L
                = emit [] [VNum 1] (first fuel k (nats 2))
                /\ spread (S fuel) L = emit [] [VNum 1] (spread fuel (nats 2))).
Proof.
  split.
  - split; [reflexivity|].
    apply (proj1 C6_cons (VNum 1) (OVal (VNum 7)) None). reflexivity.
  - split; [discriminate|].
    apply (proj1 (proj2 C6_cons) (VNum 1) (OLazy (nats 2)) None). discriminate.
Defined.

(** ** Project Euler 2 in src/test.js *)

(** C8. The sequence of Fibonacci numbers from (1, 1), cut by
    takeWhile(n => n < 4000000), filtered by isEven and reduced by sum, gives
    4613732.  This holds for [fibs], which test.js uses (Lazy.from around a
    generator function that delegates to Lazy.cons), and for [fibs2] (Lazy.cons
    around Lazy.from), as soon as the recursive function may be unfolded 40
    times and each traversal may take 300 steps. *)
Theorem C8_euler2 (depth fuel : nat) :
  TestJs.euler2 (40 + depth) (300 + fuel) = Ok ([], Return (VNum 4613732))
  /\ TestJs.euler2_of (300 + fuel) (TestJs.fibs2 (40 + depth))
     = Ok ([], Return (VNum 4613732)).
Proof.
  split; vm_compute; reflexivity.
Qed.

(** ** zip *)

Lemma zip_not_iterable (a b : obj) :
  get_SI a = None \/ get_SI b = None -> zip a b = Err TypeError.
Proof.
  unfold zip. intros [H|H]; rewrite H; [|destruct (get_SI a)]; reflexivity.
Qed.

Lemma zip_tag (a b : obj) (L : Lazy) :
  zip a b = Ok L ->
  infinite L = true ->
  get_infinite a = Some true /\ get_infinite b = Some true.
Proof.
  unfold zip. destruct (get_SI a), (get_SI b); try discriminate.
  intros H; injection H as <-. simpl.
  destruct (get_infinite a) as [[|]|], (get_infinite b) as [[|]|];
    simpl; intros; try discriminate; split; reflexivity.
Qed.

Lemma zip_of_sequences :
  exists L,
    zip (OLazy (nats 0)) (OLazy (take 3 (nats 5))) = Ok L
    /\ infinite L = false
    /\ forall fuel : nat,
         spread (8 + fuel) L
         = Out [] [VArr [VNum 0; VNum 5]; VArr [VNum 1; VNum 6]; VArr [VNum 2; VNum 7]]
               Finished.
Proof.
  eexists. split; [reflexivity|]. split; [reflexivity|]. intros fuel. reflexivity.
Qed.

Section Zip.

Variables ia ib : Gen.

(* When both cursors deliver [k] elements, so does the cursor over their zip,
   and it delivers the pairs. *)
Lemma zip_loop_pairs (N : nat) :
  (forall (fa fb k : nat) (a : St ia) (b : St ib),
      (fa + fb <= N)%nat ->
      ends (pull ia fa k a) = Suspended ->
      ends (pull ib fb k b) = Suspended ->
      let o := pull (zip_loop ia ib) (fa + fb) k (ZA a b) in
      ends o = Suspended
      /\ elems o = pairs (elems (pull ia fa k a)) (elems (pull ib fb k b)))
  /\ (forall (fa fb k : nat) (v : value) (a : St ia) (b : St ib),
        (fa + fb <= N)%nat ->
        ends (pull ia fa k a) = Suspended ->
        ends (pull ib fb (S k) b) = Suspended ->
        let o := pull (zip_loop ia ib) (fa + fb) (S k) (ZB (Some (v, a)) b) in
        ends o = Suspended
        /\ elems o = pairs (v :: elems (pull ia fa k a)) (elems (pull ib fb (S k) b))).
Proof.
  induction N as [|N [IHA IHB]].
  - split.
    + intros fa fb k a b HN Ha Hb. assert (fa = O /\ fb = O) as [-> ->] by lia.
      destruct k; simpl in *; [split; reflexivity | discriminate].
    + intros fa fb k v a b HN Ha Hb. assert (fa = O /\ fb = O) as [-> ->] by lia.
      simpl in Hb. discriminate.
  - split.
    + intros fa fb k a b HN Ha Hb.
      destruct k as [|k]; [destruct fa, fb; simpl; split; reflexivity|].
      destruct fa as [|fa]; [simpl in Ha; discriminate|].
      simpl in *.
      destruct (resume ia a) as [l [v a'|a'| |e]]; simpl in *; try discriminate.
      * destruct (IHB fa fb k v a' b ltac:(lia) Ha Hb) as [He Hx].
        split; [exact He | exact Hx].
      * destruct (IHA fa fb (S k) a' b ltac:(lia) Ha Hb) as [He Hx].
        split; [exact He | exact Hx].
    + intros fa fb k v a b HN Ha Hb.
      destruct fb as [|fb]; [simpl in Hb; discriminate|].
      replace (fa + S fb)%nat with (S (fa + fb)) by lia.
      simpl in *.
      destruct (resume ib b) as [l [w b'|b'| |e]]; simpl in *; try discriminate.
      * destruct (IHA fa fb k a b' ltac:(lia) Ha Hb) as [He Hx].
        split; [exact He|]. rewrite Hx. reflexivity.
      * destruct (IHB fa fb k v a b' ltac:(lia) Ha Hb) as [He Hx].
        split; [exact He | exact Hx].
Qed.

End Zip.

(* zip pairs the elements of two sequences position by position. *)
Lemma zip_pairs (A B : Lazy) (fa fb k : nat) :
  ends (first fa k A) = Suspended ->
  ends (first fb k B) = Suspended ->
  exists L, zip (OLazy A) (OLazy B) = Ok L
            /\ ends (first (fa + fb) k L) = Suspended
            /\ elems (first (fa + fb) k L)
               = pairs (elems (first fa k A)) (elems (first fb k B)).
Proof.
  intros Ha Hb. eexists. split; [reflexivity|].
  apply (proj1 (zip_loop_pairs (SI A) (SI B) (fa + fb)) fa fb k
           (start (SI A)) (start (SI B)) (le_n _) Ha Hb).
Qed.

(** C3 (where the code departs from it).  zip keeps [a[SI]] and [b[SI]] in
    variables and calls them as plain functions, so the method runs without a
    receiver.  The generator functions of Lazy objects do not look at their
    receiver, but the iterator method of a native array does: zip accepts two
    arrays, or the naturals and an array of three elements, returns a sequence
    tagged false, and the first advance of any cursor over that sequence
    raises a TypeError instead of delivering a pair.  cons, which writes
    [yield* b], delivers the elements of the same array. *)
Theorem C3_zip_of_arrays_raises :
  (exists L, zip (OVal (VArr three)) (OVal (VArr three)) = Ok L
             /\ infinite L = false
             /\ forall fuel : nat, spread (S fuel) L = Out [] [] (Raised TypeError))
  /\ (exists L, zip (OLazy (nats 0)) (OVal (VArr three)) = Ok L
                /\ infinite L = false
                /\ forall fuel : nat, spread (S fuel) L = Out [] [] (Raised TypeError))
  /\ (exists L, cons (VNum 0) (OVal (VArr three)) None = Ok L
                /\ forall fuel : nat,
                     spread (5 + fuel) L
                     = Out [] [VNum 0; VNum 7; VNum 8; VNum 9] Finished).
Proof.
  repeat split; eexists; repeat split; reflexivity.
Qed.

(** ** A wrapper runs in step with the sequence it wraps *)

Section Lockstep.

Variable g : Gen.

Lemma pull_length (fuel : nat) :
  forall (k : nat) (s : St g),
    ends (pull g fuel k s) = Suspended ->
    length (elems (pull g fuel k s)) = k.
Proof.
  induction fuel as [|fuel IH]; intros [|k] s; simpl; try reflexivity; try discriminate.
  destruct (resume g s) as [l [v s'|s'| |e]]; simpl; try discriminate.
  - intros H. rewrite (IH k s' H). reflexivity.
  - intros H. apply (IH (S k) s' H).
Qed.

Lemma pull_prefix (fuel : nat) :
  forall (n m : nat) (s : St g),
    ends (pull g fuel (n + m) s) = Suspended ->
    ends (pull g fuel n s) = Suspended
    /\ elems (pull g fuel n s) = firstn n (elems (pull g fuel (n + m) s)).
Proof.
  induction fuel as [|fuel IH]; intros [|n] m s; simpl;
    try (intros; split; reflexivity); try discriminate.
  destruct (resume g s) as [l [v s'|s'| |e]]; simpl; try discriminate.
  - intros H. destruct (IH n m s' H) as [He Hx]. rewrite He, Hx. split; reflexivity.
  - intros H. apply (IH (S n) m s' H).
Qed.

(* A run that ended for another reason than the bound on its steps is not
   changed by a larger bound. *)
Lemma pull_more_fuel (fuel extra : nat) :
  forall (k : nat) (s : St g),
    ends (pull g fuel k s) <> OutOfFuel ->
    pull g (fuel + extra) k s = pull g fuel k s.
Proof.
  induction fuel as [|fuel IH]; intros [|k] s; simpl; try congruence.
  - destruct extra; reflexivity.
  - destruct (resume g s) as [l [v s'|s'| |e]]; simpl; try reflexivity;
      intros H; rewrite IH by exact H; reflexivity.
Qed.

Lemma drain_more_fuel (fuel extra : nat) :
  forall s : St g,
    ends (drain g fuel s) <> OutOfFuel ->
    drain g (fuel + extra) s = drain g fuel s.
Proof.
  induction fuel as [|fuel IH]; intros s; simpl; try congruence.
  destruct (resume g s) as [l [v s'|s'| |e]]; simpl; try reflexivity;
    intros H; rewrite IH by exact H; reflexivity.
Qed.

Variable n : Z.

Lemma take_pull (fuel : nat) :
  forall (k i : nat) (s : St g),
    Z.of_nat i + Z.of_nat k <= n ->
    pull (take_gen n g) fuel k (i, s) = pull g fuel k s.
Proof.
  induction fuel as [|fuel IH]; intros [|k] i s Hk; simpl; try reflexivity.
  destruct (resume g s) as [l [v s'|s'| |e]]; simpl; try reflexivity.
  - replace (Z.of_nat i <? n) with true by (symmetry; apply Z.ltb_lt; lia).
    simpl. rewrite IH by lia. reflexivity.
  - rewrite IH by lia. reflexivity.
Qed.

Lemma drop_pull_pass (fuel : nat) :
  forall (m i : nat) (s : St g),
    n <= Z.of_nat i ->
    pull (drop_gen n g) fuel m (i, s) = pull g fuel m s.
Proof.
  induction fuel as [|fuel IH]; intros [|m] i s Hi; simpl; try reflexivity.
  destruct (resume g s) as [l [v s'|s'| |e]]; simpl; try reflexivity.
  - replace (Z.of_nat i <? n) with false by (symmetry; apply Z.ltb_ge; lia).
    simpl. rewrite IH by lia. reflexivity.
  - rewrite IH by lia. reflexivity.
Qed.

Lemma drop_pull_skip (fuel : nat) :
  forall (k j m i : nat) (s : St g),
    k = (j + m)%nat ->
    Z.of_nat i + Z.of_nat j = n ->
    ends (pull g fuel k s) = Suspended ->
    ends (pull (drop_gen n g) fuel m (i, s)) = Suspended
    /\ elems (pull (drop_gen n g) fuel m (i, s)) = skipn j (elems (pull g fuel k s)).
Proof.
  induction fuel as [|fuel IH]; intros k j m i s Hk Hij H.
  - destruct k as [|k]; simpl in H; [|discriminate].
    assert (j = O /\ m = O) as [-> ->] by lia. split; reflexivity.
  - destruct m as [|m].
    + split; [destruct fuel; reflexivity|].
      pose proof (pull_length (S fuel) k s H) as Hlen.
      rewrite skipn_all2 by lia. reflexivity.
    + destruct k as [|k]; [lia|]. simpl in *.
      destruct (resume g s) as [l [v s'|s'| |e]]; simpl in *; try discriminate.
      * destruct j as [|j].
        -- replace (Z.of_nat i <? n) with false by (symmetry; apply Z.ltb_ge; lia).
           simpl. rewrite drop_pull_pass by lia.
           assert (k = m) as -> by lia. split; [exact H|reflexivity].
        -- replace (Z.of_nat i <? n) with true by (symmetry; apply Z.ltb_lt; lia).
           simpl. apply (IH k j (S m) (S i) s'); [lia|lia|exact H].
      * apply (IH (S k) j (S m) i s'); [lia|lia|exact H].
Qed.

(* Spreading take(n) from the point where [i] elements went by and [j] are
   still to come is asking the wrapped cursor for [j + 1] elements. *)
Lemma take_drain (fuel : nat) :
  forall (j i : nat) (s : St g),
    Z.of_nat i + Z.of_nat j = n ->
    drain (take_gen n g) fuel (i, s)
    = let o := pull g fuel (S j) s in
      Out (log o) (firstn j (elems o))
          (match ends o with Suspended => Finished | e => e end).
Proof.
  induction fuel as [|fuel IH]; intros j i s Hij; simpl; [destruct j; reflexivity|].
  destruct (resume g s) as [l [v s'|s'| |e]]; simpl; try reflexivity.
  - destruct j as [|j].
    + replace (Z.of_nat i <? n) with false by (symmetry; apply Z.ltb_ge; lia).
      destruct fuel; simpl; rewrite app_nil_r; reflexivity.
    + replace (Z.of_nat i <? n) with true by (symmetry; apply Z.ltb_lt; lia).
      rewrite (IH j (S i) s') by lia. reflexivity.
  - rewrite (IH j i s') by lia. reflexivity.
  - rewrite firstn_nil. reflexivity.
  - rewrite firstn_nil. reflexivity.
Qed.

End Lockstep.

Lemma silent_step (g : Gen) (s : St g) :
  silent g -> exists r, resume g s = ([], r).
Proof.
  intros H. specialize (H s). destruct (resume g s) as [l r]. simpl in H. subst.
  exists r. reflexivity.
Qed.

Lemma spy_pull (g : Gen) (fuel : nat) :
  silent g ->
  forall (k : nat) (s : St g),
    pull (spy_gen g) fuel k s
    = let o := pull g fuel k s in
      Out (List.map Produced (elems o)
             ++ match ends o with Finished => [Exhausted] | _ => [] end)
          (elems o) (ends o).
Proof.
  intros Hs. induction fuel as [|fuel IH]; intros [|k] s; simpl; try reflexivity.
  destruct (silent_step g s Hs) as [r ->].
  destruct r as [v s'|s'| |e]; simpl; rewrite ?IH; reflexivity.
Qed.

Lemma nats_silent (n : Z) : silent (SI (nats n)).
Proof. intros s. reflexivity. Qed.

(** ** take and drop *)

(** C7. When a sequence delivers [n + m] elements, the [n] elements that
    take(n) delivers followed by the first [m] elements that drop(n) delivers
    are those [n + m] elements, in order; each of the three is a fresh
    traversal of the same sequence.  take(n) delivers those [n] elements and
    no more: under any bound, spreading take(n) gives the first [n] of the
    elements that [n + 1] advances of the sequence deliver, so never more than
    [n], and is done when the sequence answered the advance after the [n]-th;
    for [m] >= 1 the spread of take(n) finishes with exactly the [n] elements
    above. *)
Theorem C7_take_drop (L : Lazy) (n m fuel : nat) :
  ends (first fuel (n + m) L) = Suspended ->
  let xs := elems (first fuel (n + m) L) in
  let front := first fuel n (take (Z.of_nat n) L) in
  let back := first fuel m (drop (Z.of_nat n) L) in
  length xs = (n + m)%nat
  /\ ends front = Suspended /\ length (elems front) = n
  /\ ends back = Suspended /\ length (elems back) = m
  /\ elems front ++ elems back = xs
  /\ elems front = firstn n xs
  /\ (forall fuel' : nat,
        spread fuel' (take (Z.of_nat n) L)
        = let o := first fuel' (S n) L in
          Out (log o) (firstn n (elems o))
              (match ends o with Suspended => Finished | e => e end))
  /\ (forall fuel' : nat,
        (length (elems (spread fuel' (take (Z.of_nat n) L))) <= n)%nat)
  /\ ((1 <= m)%nat ->
      ends (spread fuel (take (Z.of_nat n) L)) = Finished
      /\ elems (spread fuel (take (Z.of_nat n) L)) = elems front).
Proof.
  intros H xs front back. unfold first in *. simpl in front, back.
  pose proof (pull_length _ _ _ _ H) as Hlen.
  destruct (pull_prefix (SI L) fuel n m (start (SI L)) H) as [Hfe Hfx].
  assert (Hf : front = pull (SI L) fuel n (start (SI L))).
  { apply take_pull. lia. }
  destruct (drop_pull_skip (SI L) (Z.of_nat n) fuel (n + m) n m O (start (SI L))
              eq_refl ltac:(lia) H) as [Hbe Hbx].
  fold back in Hbe, Hbx. fold xs in Hbx, Hfx, Hlen.
  assert (Hspread : forall fuel' : nat,
             spread fuel' (take (Z.of_nat n) L)
             = Out (log (pull (SI L) fuel' (S n) (start (SI L))))
                   (firstn n (elems (pull (SI L) fuel' (S n) (start (SI L)))))
                   (match ends (pull (SI L) fuel' (S n) (start (SI L))) with
                    | Suspended => Finished
                    | e => e
                    end)).
  { intros fuel'.
    exact (take_drain (SI L) (Z.of_nat n) fuel' n O (start (SI L)) ltac:(lia)). }
  rewrite Hf, Hfe, Hbe, Hbx, Hfx.
  repeat match goal with |- _ /\ _ => split end; try assumption; try reflexivity.
  - rewrite length_firstn. lia.
  - rewrite length_skipn. lia.
  - apply firstn_skipn.
  - intros fuel'. rewrite Hspread. simpl elems. apply firstn_le_length.
  - intros Hm. rewrite Hspread. simpl ends. simpl elems.
    assert (Hnm : (n + m)%nat = (S n + (m - 1))%nat) by lia.
    assert (H' : ends (pull (SI L) fuel (S n + (m - 1)) (start (SI L))) = Suspended)
      by (rewrite <- Hnm; exact H).
    destruct (pull_prefix (SI L) fuel (S n) (m - 1) (start (SI L)) H') as [He Hx].
    rewrite He, Hx, <- Hnm. fold xs.
    split; [reflexivity|].
    rewrite firstn_firstn. f_equal. lia.
Qed.

Lemma C7_take_drop_witness :
  ends (first 5 (2 + 3) (nats 10)) = Suspended
  /\ elems (first 5 2 (take 2 (nats 10))) ++ elems (first 5 3 (drop 2 (nats 10)))
     = [VNum 10; VNum 11; VNum 12; VNum 13; VNum 14]
  /\ ((1 <= 3)%nat
      /\ spread 5 (take 2 (nats 10)) = Out [] [VNum 10; VNum 11] Finished).
Proof.
  split; [reflexivity|].
  destruct (C7_take_drop (nats 10) 2 3 5 eq_refl)
    as (_ & _ & _ & _ & _ & Hcat & _ & Hs & _ & _).
  split; [exact Hcat|]. split; [lia|]. exact (Hs 5%nat).
Defined.

(** C9. When a sequence delivers more than [n] elements, spreading take(n)
    finishes with the first [n] of them after running the cursor of the
    sequence exactly as [n + 1] calls of its next() do: the log of the spread
    is the log of those [n + 1] advances, and when only a recorder around the
    sequence writes, the log names [n + 1] produced elements, the last of
    which take(n) throws away.  For [n] = 0 nothing is delivered and one
    element is computed. *)
Theorem C9_take_pulls_one_more (L : Lazy) (n fuel : nat) :
  ends (first fuel (S n) L) = Suspended ->
  let o := first fuel (S n) L in
  length (elems o) = S n
  /\ spread fuel (take (Z.of_nat n) L) = Out (log o) (firstn n (elems o)) Finished
  /\ (silent (SI L) ->
      spread fuel (take (Z.of_nat n) (spy L))
      = Out (List.map Produced (elems o)) (firstn n (elems o)) Finished).
Proof.
  intros H o. subst o. unfold first in *.
  split; [apply pull_length; exact H|]. split.
  - change (spread fuel (take (Z.of_nat n) L))
      with (drain (take_gen (Z.of_nat n) (SI L)) fuel (O, start (SI L))).
    rewrite (take_drain (SI L) (Z.of_nat n) fuel n O (start (SI L))) by lia.
    cbv zeta. rewrite H. reflexivity.
  - intros Hs.
    pose proof (take_drain (spy_gen (SI L)) (Z.of_nat n) fuel n O (start (SI L))
                  ltac:(lia)) as E.
    cbv zeta in E. rewrite (spy_pull (SI L) fuel Hs) in E. cbv zeta in E.
    simpl log in E. simpl elems in E. simpl ends in E.
    rewrite H, app_nil_r in E. exact E.
Qed.

Lemma C9_take_pulls_one_more_witness :
  ends (first 1 1 (nats 0)) = Suspended
  /\ spread 1 (take 0 (nats 0)) = Out [] [] Finished
  /\ spread 1 (take 0 (spy (nats 0))) = Out [Produced (VNum 0)] [] Finished.
Proof.
  split; [reflexivity|].
  destruct (C9_take_pulls_one_more (nats 0) 0 1 eq_refl) as (_ & H1 & H2).
  split; [exact H1 | exact (H2 (nats_silent 0))].
Defined.

(** ** What map and filter hand to their callback *)

Section Callbacks.

Variable g : Gen.
Variable f : list value -> value.
Hypothesis g_silent : silent g.

Lemma map_drain (fuel : nat) :
  forall s : St g,
    drain (LazyJs.map_gen (watch f) g) fuel s
    = let o := drain g fuel s in
      Out (List.map (fun x => Called [x]) (elems o))
          (List.map (fun x => f [x]) (elems o)) (ends o).
Proof.
  induction fuel as [|fuel IH]; intros s; simpl; try reflexivity.
  destruct (silent_step g s g_silent) as [r ->].
  destruct r as [v s'|s'| |e]; simpl; rewrite ?IH; reflexivity.
Qed.

Lemma filter_drain (fuel : nat) :
  forall s : St g,
    drain (LazyJs.filter_gen (watch f) g) fuel s
    = let o := drain g fuel s in
      Out (List.map (fun x => Called [x]) (elems o))
          (List.filter (fun x => truthy (f [x])) (elems o)) (ends o).
Proof.
  induction fuel as [|fuel IH]; intros s; simpl; try reflexivity.
  destruct (silent_step g s g_silent) as [r ->].
  destruct r as [v s'|s'| |e]; simpl; try reflexivity.
  - destruct (truthy (f [v])); simpl; rewrite IH; reflexivity.
  - rewrite IH. reflexivity.
Qed.

Lemma variant_map_drain (fuel : nat) :
  forall (i : nat) (s : St g),
    drain (Variant.map_gen (watch f) g) fuel (i, s)
    = let o := drain g fuel s in
      Out (List.map Called (indexed i (elems o)))
          (List.map f (indexed i (elems o))) (ends o).
Proof.
  induction fuel as [|fuel IH]; intros i s; simpl; try reflexivity.
  destruct (silent_step g s g_silent) as [r ->].
  destruct r as [v s'|s'| |e]; simpl; rewrite ?IH; reflexivity.
Qed.

Lemma variant_filter_drain (fuel : nat) :
  forall (i : nat) (s : St g),
    drain (Variant.filter_gen (watch f) g) fuel (i, s)
    = let o := drain g fuel s in
      Out (List.map Called (indexed i (elems o)))
          (kept f i (elems o)) (ends o).
Proof.
  induction fuel as [|fuel IH]; intros i s; simpl; try reflexivity.
  destruct (silent_step g s g_silent) as [r ->].
  destruct r as [v s'|s'| |e]; simpl; try reflexivity.
  - destruct (truthy (f [v; VNum (Z.of_nat i)])); simpl; rewrite IH; reflexivity.
  - rewrite IH. reflexivity.
Qed.

End Callbacks.

(** C4 (as the code has it).  Take a sequence whose cursor writes nothing and
    spread it with some bound on the steps; let [xs] be the elements that came
    out.  In src/lazy.js, a cursor over map(f) or filter(f) run with the same
    bound calls [f] once per element of [xs], in order, each time with one
    argument, the element; no index is passed.  In the variant of the class
    listed in src/test.js the calls have two arguments, the element and its
    position counted from 0 at the start of the cursor. *)
Theorem C4_callback_arguments (L : Lazy) (f : list value -> value) (fuel : nat) :
  silent (SI L) ->
  let o := spread fuel L in
  (exists M, map (Fn (watch f)) L = Ok M
             /\ spread fuel M
                = Out (List.map (fun x => Called [x]) (elems o))
                      (List.map (fun x => f [x]) (elems o)) (ends o))
  /\ (exists M, filter (Fn (watch f)) L = Ok M
                /\ spread fuel M
                   = Out (List.map (fun x => Called [x]) (elems o))
                         (List.filter (fun x => truthy (f [x])) (elems o)) (ends o))
  /\ (exists G, Variant.map (Fn (watch f)) (SI L) = Ok G
                /\ drain G fuel (start G)
                   = Out (List.map Called (indexed 0 (elems o)))
                         (List.map f (indexed 0 (elems o))) (ends o))
  /\ (exists G, Variant.filter (Fn (watch f)) (SI L) = Ok G
                /\ drain G fuel (start G)
                   = Out (List.map Called (indexed 0 (elems o)))
                         (kept f 0 (elems o)) (ends o)).
Proof.
  intros Hs o. subst o. unfold spread.
  split; [|split; [|split]]; eexists; (split; [reflexivity|]).
  - apply (map_drain (SI L) f Hs).
  - apply (filter_drain (SI L) f Hs).
  - apply (variant_map_drain (SI L) f Hs fuel O).
  - apply (variant_filter_drain (SI L) f Hs fuel O).
Qed.

Lemma take_nats_silent (n m : Z) : silent (SI (take n (nats m))).
Proof.
  intros [i s]. simpl. destruct (Z.of_nat i <? n); reflexivity.
Qed.

Lemma C4_callback_arguments_witness :
  silent (SI (take 2 (nats 5)))
  /\ (exists M, map (Fn (watch second_argument)) (take 2 (nats 5)) = Ok M
                /\ spread 3 M
                   = Out [Called [VNum 5]; Called [VNum 6]] [VUndef; VUndef] Finished)
  /\ (exists G, Variant.map (Fn (watch second_argument)) (SI (take 2 (nats 5))) = Ok G
                /\ drain G 3 (start G)
                   = Out [Called [VNum 5; VNum 0]; Called [VNum 6; VNum 1]]
                         [VNum 0; VNum 1] Finished).
Proof.
  split; [apply take_nats_silent|].
  destruct (C4_callback_arguments (take 2 (nats 5)) second_argument 3
              (take_nats_silent 2 5)) as (H1 & _ & H3 & _).
  split; [exact H1 | exact H3].
Defined.

(** C4 (as stated) fails on src/lazy.js: over the two elements 5 and 6 the
    callback of map and the predicate of filter are called with the element
    alone, so a callback returning its second argument yields [undefined]
    twice, not 0 and 1. *)
Lemma C4_counterexample :
  (exists M, map (Fn (watch second_argument)) (take 2 (nats 5)) = Ok M
             /\ spread 3 M
                = Out [Called [VNum 5]; Called [VNum 6]] [VUndef; VUndef] Finished
             /\ log (spread 3 M) <> [Called [VNum 5; VNum 0]; Called [VNum 6; VNum 1]])
  /\ (exists M, filter (Fn (watch second_argument)) (take 2 (nats 5)) = Ok M
                /\ spread 3 M = Out [Called [VNum 5]; Called [VNum 6]] [] Finished
                /\ log (spread 3 M) <> [Called [VNum 5; VNum 0]; Called [VNum 6; VNum 1]]).
Proof.
  split; eexists; (split; [reflexivity|]); (split; [reflexivity|]); discriminate.
Qed.

(** ** How often takeWhile and dropWhile call their predicate *)

Section Predicates.

Variable g : Gen.
Variable p : list value -> value.




Hypothesis g_silent : silent g.







End Predicates.



Example takeWhile_log :
  exists T, takeWhile (Fn (watch (below 2))) (spy (nats 0)) = Ok T
            /\ spread 6 T
               = Out [Produced (VNum 0); Called [VNum 0];
                      Produced (VNum 1); Called [VNum 1];
                      Produced (VNum 2); Called [VNum 2]]
                     [VNum 0; VNum 1] Finished.
Proof. eexists; split; reflexivity. Qed.

Example dropWhile_log :
  exists D, dropWhile (Fn (watch (below 2))) (spy (nats 0)) = Ok D
            /\ first 6 2 D
               = Out [Produced (VNum 0); Called [VNum 0];
                      Produced (VNum 1); Called [VNum 1];
                      Produced (VNum 2); Called [VNum 2];
                      Produced (VNum 3)]
                     [VNum 2; VNum 3] Suspended.
Proof. eexists; split; reflexivity. Qed.

(** * Further properties of src/lazy.js *)

(** ** length *)

Lemma length_loop_drain (g : Gen) (fuel : nat) :
  forall (n : nat) (s : St g),
    length_loop g fuel n s
    = let o := drain g fuel s in
      (log o,
       match ends o with
       | Finished => Returns (Count (n + length (elems o)))
       | Raised e => Raises e
       | _ => Runs_out
       end).
Proof.
  induction fuel as [|fuel IH]; intros n s; simpl; try reflexivity.
  destruct (resume g s) as [l [v s'|s'| |e]]; simpl.
  - rewrite IH. cbv zeta. simpl.
    destruct (ends (drain g fuel s')); try reflexivity.
    rewrite Nat.add_succ_r. reflexivity.
  - rewrite IH. reflexivity.
  - rewrite Nat.add_0_r. reflexivity.
  - reflexivity.
Qed.

(** X1. [length] of a sequence tagged infinite is Infinity at once, with an
    empty log.  On a sequence that is not, [length] walks the sequence once:
    its log is the log of spreading the sequence, it returns the number of
    elements the spread delivers when the spread finishes, and it raises what
    the spread raises. *)
Theorem X1_length (g : Gen) (fuel : nat) :
  get_length fuel (mkLazy g true) = ([], Returns Infinity)
  /\ get_length fuel (mkLazy g false)
     = let o := spread fuel (mkLazy g false) in
       (log o,
        match ends o with
        | Finished => Returns (Count (length (elems o)))
        | Raised e => Raises e
        | _ => Runs_out
        end).
Proof.
  split; [reflexivity|].
  unfold get_length, spread. simpl. apply (length_loop_drain g fuel O).
Qed.

(** ** take and drop against the elements of the whole sequence *)

Section TakeDrop.

Variable g : Gen.
Variables n m : Z.

Lemma take_drain_elems (fuel : nat) :
  forall (i : nat) (s : St g),
    elems (drain (take_gen n g) fuel (i, s))
    = firstn (Z.to_nat (n - Z.of_nat i)) (elems (drain g fuel s))
    /\ (ends (drain (take_gen n g) fuel (i, s)) = Finished
        \/ ends (drain (take_gen n g) fuel (i, s)) = ends (drain g fuel s)).
Proof.
  induction fuel as [|fuel IH]; intros i s; simpl.
  - split; [rewrite firstn_nil; reflexivity | right; reflexivity].
  - destruct (resume g s) as [l [v s'|s'| |e]]; simpl.
    + destruct (Z.ltb_spec (Z.of_nat i) n) as [Hlt|Hge]; simpl.
      * destruct (IH (S i) s') as [He Hn]. rewrite He.
        replace (Z.to_nat (n - Z.of_nat i))
          with (S (Z.to_nat (n - Z.of_nat (S i)))) by lia.
        split; [reflexivity | exact Hn].
      * replace (Z.to_nat (n - Z.of_nat i)) with O by lia.
        split; [reflexivity | left; reflexivity].
    + apply IH.
    + split; [rewrite firstn_nil; reflexivity | right; reflexivity].
    + split; [rewrite firstn_nil; reflexivity | right; reflexivity].
Qed.

Lemma drop_drain (fuel : nat) :
  forall (i : nat) (s : St g),
    drain (drop_gen n g) fuel (i, s)
    = let o := drain g fuel s in
      Out (log o) (skipn (Z.to_nat (n - Z.of_nat i)) (elems o)) (ends o).
Proof.
  induction fuel as [|fuel IH]; intros i s; simpl.
  - rewrite skipn_nil. reflexivity.
  - destruct (resume g s) as [l [v s'|s'| |e]]; simpl;
      rewrite ?skipn_nil; try reflexivity.
    + destruct (Z.ltb_spec (Z.of_nat i) n) as [Hlt|Hge]; simpl; rewrite IH; cbv zeta.
      * replace (Z.to_nat (n - Z.of_nat i))
          with (S (Z.to_nat (n - Z.of_nat (S i)))) by lia.
        reflexivity.
      * replace (Z.to_nat (n - Z.of_nat i)) with O by lia.
        replace (Z.to_nat (n - Z.of_nat (S i))) with O by lia.
        reflexivity.
    + rewrite IH. reflexivity.
Qed.

Lemma take_take_drain (fuel : nat) :
  forall (i : nat) (s : St g),
    drain (take_gen m (take_gen n g)) fuel (i, (i, s))
    = drain (take_gen (Z.min n m) g) fuel (i, s).
Proof.
  induction fuel as [|fuel IH]; intros i s; simpl; try reflexivity.
  destruct (resume g s) as [l [v s'|s'| |e]]; simpl; try reflexivity.
  - destruct (Z.ltb_spec (Z.of_nat i) n), (Z.ltb_spec (Z.of_nat i) (Z.min n m));
      simpl; try lia; try reflexivity;
      destruct (Z.ltb_spec (Z.of_nat i) m); simpl; try lia; try reflexivity.
    rewrite IH. reflexivity.
  - rewrite IH. reflexivity.
Qed.

Lemma take_take_pull (fuel : nat) :
  forall (k i : nat) (s : St g),
    pull (take_gen m (take_gen n g)) fuel k (i, (i, s))
    = pull (take_gen (Z.min n m) g) fuel k (i, s).
Proof.
  induction fuel as [|fuel IH]; intros [|k] i s; simpl; try reflexivity.
  destruct (resume g s) as [l [v s'|s'| |e]]; simpl; try reflexivity.
  - destruct (Z.ltb_spec (Z.of_nat i) n), (Z.ltb_spec (Z.of_nat i) (Z.min n m));
      simpl; try lia; try reflexivity;
      destruct (Z.ltb_spec (Z.of_nat i) m); simpl; try lia; try reflexivity.
    rewrite IH. reflexivity.
  - rewrite IH. reflexivity.
Qed.

Hypothesis m_pos : 0 <= m.

Lemma drop_drop_drain (fuel : nat) :
  forall (i j : nat) (s : St g),
    Z.of_nat j = Z.max 0 (Z.of_nat i - n) ->
    drain (drop_gen m (drop_gen n g)) fuel (j, (i, s))
    = drain (drop_gen (n + m) g) fuel (i, s).
Proof.
  induction fuel as [|fuel IH]; intros i j s Hj; simpl; try reflexivity.
  destruct (resume g s) as [l [v s'|s'| |e]]; simpl; try reflexivity.
  - destruct (Z.ltb_spec (Z.of_nat i) n), (Z.ltb_spec (Z.of_nat i) (n + m));
      simpl; try lia.
    + rewrite IH by lia. reflexivity.
    + destruct (Z.ltb_spec (Z.of_nat j) m); simpl; try lia.
      rewrite IH by lia. reflexivity.
    + destruct (Z.ltb_spec (Z.of_nat j) m); simpl; try lia.
      rewrite IH by lia. reflexivity.
  - rewrite IH by lia. reflexivity.
Qed.

Lemma drop_drop_pull (fuel : nat) :
  forall (k i j : nat) (s : St g),
    Z.of_nat j = Z.max 0 (Z.of_nat i - n) ->
    pull (drop_gen m (drop_gen n g)) fuel k (j, (i, s))
    = pull (drop_gen (n + m) g) fuel k (i, s).
Proof.
  induction fuel as [|fuel IH]; intros [|k] i j s Hj; simpl; try reflexivity.
  destruct (resume g s) as [l [v s'|s'| |e]]; simpl; try reflexivity.
  - destruct (Z.ltb_spec (Z.of_nat i) n), (Z.ltb_spec (Z.of_nat i) (n + m));
      simpl; try lia.
    + rewrite IH by lia. reflexivity.
    + destruct (Z.ltb_spec (Z.of_nat j) m); simpl; try lia.
      rewrite IH by lia. reflexivity.
    + destruct (Z.ltb_spec (Z.of_nat j) m); simpl; try lia.
      rewrite IH by lia. reflexivity.
  - rewrite IH by lia. reflexivity.
Qed.

End TakeDrop.

(** X2. For every integer [n], negative ones included, spreading take(n)
    delivers the first max(n, 0) of the elements that spreading the sequence
    delivers under the same bound, and ends done or as that spread ends;
    spreading drop(n) has the log and the end of spreading the sequence and
    delivers its elements but the first max(n, 0).  So take(n) with n <= 0 is
    empty and drop(n) with n <= 0 is the whole sequence. *)
Theorem X2_take_drop_elements (L : Lazy) (n : Z) (fuel : nat) :
  let o := spread fuel L in
  elems (spread fuel (take n L)) = firstn (Z.to_nat n) (elems o)
  /\ (ends (spread fuel (take n L)) = Finished
      \/ ends (spread fuel (take n L)) = ends o)
  /\ spread fuel (drop n L)
     = Out (log o) (skipn (Z.to_nat n) (elems o)) (ends o).
Proof.
  intros o. subst o. unfold spread.
  destruct (take_drain_elems (SI L) n fuel O (start (SI L))) as [He Hn].
  rewrite Z.sub_0_r in He.
  split; [exact He|]. split; [exact Hn|].
  pose proof (drop_drain (SI L) n fuel O (start (SI L))) as Hd.
  cbv zeta in Hd. rewrite Z.sub_0_r in Hd. exact Hd.
Qed.

(** X3. take(n).take(m) is take(min(n, m)): asking for elements or spreading,
    under any bound, both give the same elements, the same log and the same
    end. *)
Theorem X3_take_take (L : Lazy) (n m : Z) (fuel k : nat) :
  spread fuel (take m (take n L)) = spread fuel (take (Z.min n m) L)
  /\ first fuel k (take m (take n L)) = first fuel k (take (Z.min n m) L).
Proof.
  split.
  - apply (take_take_drain (SI L) n m fuel O).
  - apply (take_take_pull (SI L) n m fuel k O).
Qed.

(** X4. For n >= 0 and m >= 0, drop(n).drop(m) is drop(n + m): same elements,
    same log and same end under any bound. *)
Theorem X4_drop_drop (L : Lazy) (n m : Z) (fuel k : nat) :
  0 <= n -> 0 <= m ->
  spread fuel (drop m (drop n L)) = spread fuel (drop (n + m) L)
  /\ first fuel k (drop m (drop n L)) = first fuel k (drop (n + m) L).
Proof.
  intros Hn Hm. split.
  - apply (drop_drop_drain (SI L) n m Hm fuel O O). simpl. lia.
  - apply (drop_drop_pull (SI L) n m Hm fuel k O O). simpl. lia.
Qed.

Lemma X4_drop_drop_witness :
  0 <= 2 /\ 0 <= 3
  /\ first 7 2 (drop 3 (drop 2 (nats 0))) = first 7 2 (drop (2 + 3) (nats 0))
  /\ first 7 2 (drop (2 + 3) (nats 0)) = Out [] [VNum 5; VNum 6] Suspended.
Proof.
  split; [lia|]. split; [lia|].
  split; [|reflexivity].
  apply (proj2 (X4_drop_drop (nats 0) 2 3 7 2 ltac:(lia) ltac:(lia))).
Defined.

(** ** head, tail and cons *)

Lemma drain_first (g : Gen) (fuel : nat) (x : value) (xs : list value) :
  forall s : St g,
    elems (drain g fuel s) = x :: xs ->
    elems (pull g fuel 1 s) = [x] /\ ends (pull g fuel 1 s) = Suspended.
Proof.
  induction fuel as [|fuel IH]; intros s; simpl; try discriminate.
  destruct (resume g s) as [l [v s'|s'| |e]]; simpl; try discriminate.
  - intros H. injection H as -> _. destruct fuel; split; reflexivity.
  - apply IH.
Qed.

Lemma head_first (L : Lazy) (fuel : nat) :
  first fuel 1 (take 1 L) = first fuel 1 L.
Proof.
  apply (take_pull (SI L) 1 fuel 1 O (start (SI L))). simpl. lia.
Qed.

Lemma drop_spread (L : Lazy) (n : Z) (fuel : nat) :
  spread fuel (drop n L)
  = Out (log (spread fuel L)) (skipn (Z.to_nat n) (elems (spread fuel L)))
        (ends (spread fuel L)).
Proof.
  pose proof (drop_drain (SI L) n fuel O (start (SI L))) as Hd.
  cbv zeta in Hd. rewrite Z.sub_0_r in Hd. exact Hd.
Qed.

(** X5. When spreading a sequence delivers [h] first and then [rest], [head]
    returns [h] with the log of one advance of a cursor, [tail] delivers
    [rest], and cons(head, tail) is a sequence with the tag of the original
    that delivers [h] and then [rest] again. *)
Theorem X5_head_tail_rebuild (L : Lazy) (fuel : nat) (h : value) (rest : list value) :
  elems (spread fuel L) = h :: rest ->
  head fuel L = (log (first fuel 1 L), Return h)
  /\ elems (spread fuel (tail L)) = rest
  /\ exists C, cons h (OLazy (tail L)) None = Ok C
               /\ infinite C = infinite L
               /\ elems (spread (S fuel) C) = h :: rest.
Proof.
  intros H.
  destruct (drain_first (SI L) fuel h rest (start (SI L)) H) as [He Hn].
  assert (Ht : elems (spread fuel (tail L)) = rest).
  { unfold tail. rewrite drop_spread. simpl elems. rewrite H. reflexivity. }
  split; [|split; [exact Ht|]].
  - unfold head. rewrite head_first. unfold first. rewrite Hn, He. reflexivity.
  - eexists. split; [reflexivity|]. split; [reflexivity|].
    change (elems (emit [] [h]
                     (drain (cons_gen h (OLazy (tail L))) fuel
                        (Some (start (iterate (OLazy (tail L)))))))
            = h :: rest).
    rewrite cons_rest_drain.
    change (h :: elems (spread fuel (tail L)) = h :: rest).
    rewrite Ht. reflexivity.
Qed.

Lemma X5_head_tail_rebuild_witness :
  elems (spread 4 (take 3 (nats 5))) = [VNum 5; VNum 6; VNum 7]
  /\ head 4 (take 3 (nats 5)) = ([], Return (VNum 5))
  /\ elems (spread 4 (tail (take 3 (nats 5)))) = [VNum 6; VNum 7].
Proof.
  split; [reflexivity|].
  destruct (X5_head_tail_rebuild (take 3 (nats 5)) 4 (VNum 5) [VNum 6; VNum 7] eq_refl)
    as (Hh & Ht & _).
  split; [exact Hh | exact Ht].
Defined.

(** X6. Whatever [a], the iterable [b] and the tag given, [head] of
    cons(a, b) is [a] after one step, and spreading its [tail] is iterating
    over [b]: same elements, same log, same end. *)
Theorem X6_cons_head_tail (a : value) (b : obj) (o : option bool) (C : Lazy)
    (fuel : nat) :
  cons a b o = Ok C ->
  head (S fuel) C = ([], Return a)
  /\ spread (S fuel) (tail C) = drain (iterate b) fuel (start (iterate b)).
Proof.
  unfold cons. destruct (get_SI b); [|discriminate].
  intros H. injection H as <-. split.
  - unfold head, first. simpl. destruct fuel; reflexivity.
  - pose proof (drop_drain (cons_gen a b) 1 fuel 1 (Some (start (iterate b)))) as Hd.
    cbv zeta in Hd. rewrite (cons_rest_drain a b fuel) in Hd.
    change (emit [] []
              (drain (drop_gen 1 (cons_gen a b)) fuel (1%nat, Some (start (iterate b))))
            = drain (iterate b) fuel (start (iterate b))).
    etransitivity; [apply f_equal; exact Hd|].
    destruct (drain (iterate b) fuel (start (iterate b))); reflexivity.
Qed.

Lemma X6_cons_head_tail_witness :
  cons (VNum 1) (OVal (VArr three)) None
  = Ok (new_Lazy (cons_gen (VNum 1) (OVal (VArr three))) None)
  /\ head 5 (new_Lazy (cons_gen (VNum 1) (OVal (VArr three))) None)
     = ([], Return (VNum 1))
  /\ spread 5 (tail (new_Lazy (cons_gen (VNum 1) (OVal (VArr three))) None))
     = Out [] three Finished.
Proof.
  split; [reflexivity|].
  apply (X6_cons_head_tail (VNum 1) (OVal (VArr three)) None _ 4). reflexivity.
Defined.

(** ** reduce and forEach against the elements of the sequence *)

Lemma reduce_loop_drop (g : Gen) (n : Z) (f : list value -> value) (fuel : nat) :
  forall (prev : value) (i : nat) (s : St g),
    reduce_loop (drop_gen n g) fuel (quiet f) prev (i, s)
    = let o := drain g fuel s in
      (log o,
       finish (fold_left (fun acc y => f [acc; y])
                 (skipn (Z.to_nat (n - Z.of_nat i)) (elems o)) prev)
              (ends o)).
Proof.
  induction fuel as [|fuel IH]; intros prev i s; simpl.
  - reflexivity.
  - destruct (resume g s) as [l [v s'|s'| |e]]; simpl;
      rewrite ?skipn_nil; try reflexivity.
    + destruct (Z.ltb_spec (Z.of_nat i) n) as [Hlt|Hge]; simpl; rewrite IH; cbv zeta.
      * replace (Z.to_nat (n - Z.of_nat i))
          with (S (Z.to_nat (n - Z.of_nat (S i)))) by lia.
        reflexivity.
      * replace (Z.to_nat (n - Z.of_nat i)) with O by lia.
        replace (Z.to_nat (n - Z.of_nat (S i))) with O by lia.
        reflexivity.
    + rewrite IH. reflexivity.
Qed.

(** X7. On a sequence that is not tagged infinite and delivers [x] and then
    [xs], reduce(f) folds [f] from the left over [xs] starting from [x], and
    returns the result when the sequence ends.  It walks the sequence twice:
    its log is the log of one advance of a fresh cursor, for [head], followed
    by the log of a whole traversal by a second cursor, for [tail]. *)
Theorem X7_reduce_is_a_left_fold (g : Gen) (f : list value -> value) (fuel : nat)
    (x : value) (xs : list value) :
  elems (spread fuel (mkLazy g false)) = x :: xs ->
  reduce fuel (Fn (quiet f)) (mkLazy g false)
  = (log (first fuel 1 (mkLazy g false)) ++ log (spread fuel (mkLazy g false)),
     finish (fold_left (fun acc y => f [acc; y]) xs x)
            (ends (spread fuel (mkLazy g false)))).
Proof.
  unfold spread, first. simpl SI. intros H.
  destruct (drain_first g fuel x xs (start g) H) as [He Hn].
  unfold reduce. simpl infinite. cbv iota.
  unfold head. rewrite (head_first (mkLazy g false) fuel). unfold first. simpl SI.
  rewrite Hn, He.
  unfold tail, drop. simpl SI. simpl start.
  rewrite (reduce_loop_drop g 1 f fuel x O (start g)). cbv zeta.
  rewrite H. reflexivity.
Qed.

Lemma X7_reduce_is_a_left_fold_witness :
  elems (spread 5 (mkLazy (SI (spy (take 3 (nats 1)))) false))
  = [VNum 1; VNum 2; VNum 3]
  /\ reduce 5 (Fn (quiet (fun args => snd (TestJs.sum args))))
       (mkLazy (SI (spy (take 3 (nats 1)))) false)
     = ([Produced (VNum 1);
         Produced (VNum 1); Produced (VNum 2); Produced (VNum 3); Exhausted],
        Return (VNum 6)).
Proof.
  split; [reflexivity|].
  apply (X7_reduce_is_a_left_fold (SI (spy (take 3 (nats 1))))
           (fun args => snd (TestJs.sum args)) 5 (VNum 1) [VNum 2; VNum 3]).
  reflexivity.
Defined.

Lemma forEach_loop_drain (g : Gen) (f : list value -> value) (fuel : nat) :
  forall s : St g,
    forEach_loop g fuel (Fn (quiet f)) s
    = let o := drain g fuel s in (log o, finish VUndef (ends o)).
Proof.
  induction fuel as [|fuel IH]; intros s; simpl; try reflexivity.
  destruct (resume g s) as [l [v s'|s'| |e]]; simpl; rewrite ?IH; reflexivity.
Qed.

Lemma forEach_loop_not_a_function (g : Gen) (v : value) (fuel : nat) :
  forall s : St g,
    forEach_loop g fuel (NotFn v) s
    = let o := pull g fuel 1 s in
      (log o,
       match ends o with
       | Suspended => Raise TypeError
       | e => finish VUndef e
       end).
Proof.
  induction fuel as [|fuel IH]; intros s; simpl; try reflexivity.
  destruct (resume g s) as [l [x s'|s'| |e]]; simpl; try reflexivity.
  - destruct fuel; simpl; rewrite app_nil_r; reflexivity.
  - rewrite IH. reflexivity.
Qed.

(** X8. On a sequence that is not tagged infinite, forEach with a function
    walks the sequence once: it has the log of spreading the sequence, returns
    [undefined] when the sequence ends and raises what the sequence raises.
    With something that is not a function, forEach raises a TypeError only
    when the sequence delivers a first element, after one advance of the
    cursor; on an empty sequence it returns [undefined]. *)
Theorem X8_forEach (g : Gen) (fuel : nat) :
  (forall f : list value -> value,
      forEach fuel (Fn (quiet f)) (mkLazy g false)
      = (log (spread fuel (mkLazy g false)),
         finish VUndef (ends (spread fuel (mkLazy g false)))))
  /\ (forall v : value,
        forEach fuel (NotFn v) (mkLazy g false)
        = (log (first fuel 1 (mkLazy g false)),
           match ends (first fuel 1 (mkLazy g false)) with
           | Suspended => Raise TypeError
           | e => finish VUndef e
           end)).
Proof.
  split; intros.
  - apply (forEach_loop_drain g f fuel).
  - apply (forEach_loop_not_a_function g v fuel).
Qed.

(** ** map and filter in a row *)

Section Fusion.

Variable g : Gen.
Variables f h : callback.

Lemma map_map_drain (fuel : nat) :
  forall s : St g,
    drain (map_gen h (map_gen f g)) fuel s = drain (map_gen (and_then f h) g) fuel s.
Proof.
  induction fuel as [|fuel IH]; intros s; simpl; try reflexivity.
  destruct (resume g s) as [l [v s'|s'| |e]]; simpl; rewrite ?IH; try reflexivity.
  unfold and_then. destruct (f [v]) as [lf w]. simpl. destruct (h [w]) as [lh u].
  rewrite IH, app_assoc. reflexivity.
Qed.

Lemma map_map_pull (fuel : nat) :
  forall (k : nat) (s : St g),
    pull (map_gen h (map_gen f g)) fuel k s = pull (map_gen (and_then f h) g) fuel k s.
Proof.
  induction fuel as [|fuel IH]; intros [|k] s; simpl; try reflexivity.
  destruct (resume g s) as [l [v s'|s'| |e]]; simpl; rewrite ?IH; try reflexivity.
  unfold and_then. destruct (f [v]) as [lf w]. simpl. destruct (h [w]) as [lh u].
  rewrite IH, app_assoc. reflexivity.
Qed.

Lemma filter_filter_drain (fuel : nat) :
  forall s : St g,
    drain (filter_gen h (filter_gen f g)) fuel s = drain (filter_gen (both f h) g) fuel s.
Proof.
  induction fuel as [|fuel IH]; intros s; simpl; try reflexivity.
  destruct (resume g s) as [l [v s'|s'| |e]]; simpl; rewrite ?IH; try reflexivity.
  unfold both. destruct (f [v]) as [lf w]. destruct (truthy w) eqn:E; simpl.
  - destruct (h [v]) as [lh u]. destruct (truthy u); rewrite IH, app_assoc; reflexivity.
  - rewrite E, IH. reflexivity.
Qed.

Lemma filter_filter_pull (fuel : nat) :
  forall (k : nat) (s : St g),
    pull (filter_gen h (filter_gen f g)) fuel k s
    = pull (filter_gen (both f h) g) fuel k s.
Proof.
  induction fuel as [|fuel IH]; intros [|k] s; simpl; try reflexivity.
  destruct (resume g s) as [l [v s'|s'| |e]]; simpl; rewrite ?IH; try reflexivity.
  unfold both. destruct (f [v]) as [lf w]. destruct (truthy w) eqn:E; simpl.
  - destruct (h [v]) as [lh u]. destruct (truthy u); rewrite IH, app_assoc; reflexivity.
  - rewrite E, IH. reflexivity.
Qed.

End Fusion.

(** X9. map(f).map(h) is map(x => h(f(x))): both sequences have the tag of
    the original and, spread or asked for [k] elements under any bound, give
    the same elements, the same log (the callbacks are called in the same
    order, [f] then [h] element by element) and the same end. *)
Theorem X9_map_map (L : Lazy) (f h : callback) (fuel k : nat) :
  exists M1 M2 M,
    map (Fn f) L = Ok M1 /\ map (Fn h) M1 = Ok M2
    /\ map (Fn (and_then f h)) L = Ok M
    /\ infinite M2 = infinite L /\ infinite M = infinite L
    /\ spread fuel M2 = spread fuel M
    /\ first fuel k M2 = first fuel k M.
Proof.
  do 3 eexists. repeat (split; [reflexivity|]). split.
  - apply (map_map_drain (SI L) f h fuel).
  - apply (map_map_pull (SI L) f h fuel k).
Qed.

(** X10. filter(p).filter(q) is filter(x => p(x) && q(x)): same tag, and
    under any bound the same elements, log and end; in particular [q] is
    called only on the elements that pass [p]. *)
Theorem X10_filter_filter (L : Lazy) (p q : callback) (fuel k : nat) :
  exists M1 M2 M,
    filter (Fn p) L = Ok M1 /\ filter (Fn q) M1 = Ok M2
    /\ filter (Fn (both p q)) L = Ok M
    /\ infinite M2 = infinite L /\ infinite M = infinite L
    /\ spread fuel M2 = spread fuel M
    /\ first fuel k M2 = first fuel k M.
Proof.
  do 3 eexists. repeat (split; [reflexivity|]). split.
  - apply (filter_filter_drain (SI L) p q fuel).
  - apply (filter_filter_pull (SI L) p q fuel k).
Qed.

(** ** zip stops with the shorter side *)

Section ZipEnds.

Variables ia ib : Gen.

(* After the left side is done, zip asks the right side once more. *)
Lemma zip_loop_left_done (fa : nat) (fb : nat) :
  forall (k : nat) (b : St ib),
    completes (ends (pull ib fb (S k) b)) = true ->
    ends (drain (zip_loop ia ib) (fa + fb) (ZB None b)) = Finished
    /\ elems (drain (zip_loop ia ib) (fa + fb) (ZB None b)) = [].
Proof.
  induction fb as [|fb IH]; intros k b; [simpl; discriminate|].
  replace (fa + S fb)%nat with (S (fa + fb)) by lia. simpl.
  destruct (resume ib b) as [l [w b'|b'| |e]]; simpl; try discriminate;
    try (intros; split; reflexivity).
  intros H. apply (IH k b' H).
Qed.

Lemma zip_loop_ends (N : nat) :
  (forall (fa fb k : nat) (a : St ia) (b : St ib),
      (fa + fb <= N)%nat ->
      completes (ends (pull ia fa k a)) = true ->
      completes (ends (pull ib fb k b)) = true ->
      ends (pull ia fa k a) = Finished \/ ends (pull ib fb k b) = Finished ->
      let o := drain (zip_loop ia ib) (fa + fb) (ZA a b) in
      ends o = Finished
      /\ elems o = pairs (elems (pull ia fa k a)) (elems (pull ib fb k b)))
  /\ (forall (fa fb k : nat) (v : value) (a : St ia) (b : St ib),
        (fa + fb <= N)%nat ->
        completes (ends (pull ia fa k a)) = true ->
        completes (ends (pull ib fb (S k) b)) = true ->
        ends (pull ia fa k a) = Finished \/ ends (pull ib fb (S k) b) = Finished ->
        let o := drain (zip_loop ia ib) (fa + fb) (ZB (Some (v, a)) b) in
        ends o = Finished
        /\ elems o = pairs (v :: elems (pull ia fa k a)) (elems (pull ib fb (S k) b))).
Proof.
  induction N as [|N [IHA IHB]].
  - split.
    + intros fa fb k a b HN Ha Hb Hf. assert (fa = O /\ fb = O) as [-> ->] by lia.
      destruct k; simpl in *; destruct Hf; discriminate.
    + intros fa fb k v a b HN Ha Hb Hf. assert (fa = O /\ fb = O) as [-> ->] by lia.
      simpl in Hb. discriminate.
  - split.
    + intros fa fb k a b HN Ha Hb Hf.
      destruct k as [|k]; [destruct fa, fb; simpl in Hf; destruct Hf; discriminate|].
      destruct fa as [|fa]; [simpl in Ha; discriminate|].
      simpl in *.
      destruct (resume ia a) as [l [v a'|a'| |e]]; simpl in *; try discriminate.
      * apply (IHB fa fb k v a' b ltac:(lia) Ha Hb Hf).
      * apply (IHA fa fb (S k) a' b ltac:(lia) Ha Hb Hf).
      * apply (zip_loop_left_done fa fb k b Hb).
    + intros fa fb k v a b HN Ha Hb Hf.
      destruct fb as [|fb]; [simpl in Hb; discriminate|].
      replace (fa + S fb)%nat with (S (fa + fb)) by lia.
      simpl in *.
      destruct (resume ib b) as [l [w b'|b'| |e]]; simpl in *; try discriminate.
      * destruct (IHA fa fb k a b' ltac:(lia) Ha Hb Hf) as [He Hx].
        split; [exact He|]. rewrite Hx. reflexivity.
      * apply (IHB fa fb k v a b' ltac:(lia) Ha Hb Hf).
      * split; reflexivity.
Qed.

End ZipEnds.

Lemma pairs_length (xs ys : list value) :
  length (pairs xs ys) = Nat.min (length xs) (length ys).
Proof.
  unfold pairs. rewrite length_map. apply length_combine.
Qed.

(** X11. Ask two sequences for [k] elements each.  When both answers come
    (each delivers [k] elements or ends) and at least one of the sequences
    ends, spreading their zip ends and delivers the pairs of the elements at
    the same positions, as many as the shorter answer has. *)
Theorem X11_zip_ends_with_the_shorter (A B : Lazy) (fa fb k : nat) :
  completes (ends (first fa k A)) = true ->
  completes (ends (first fb k B)) = true ->
  ends (first fa k A) = Finished \/ ends (first fb k B) = Finished ->
  exists Z,
    zip (OLazy A) (OLazy B) = Ok Z
    /\ ends (spread (fa + fb) Z) = Finished
    /\ elems (spread (fa + fb) Z)
       = pairs (elems (first fa k A)) (elems (first fb k B))
    /\ length (elems (spread (fa + fb) Z))
       = Nat.min (length (elems (first fa k A))) (length (elems (first fb k B))).
Proof.
  intros Ha Hb Hf. eexists. split; [reflexivity|].
  destruct (proj1 (zip_loop_ends (SI A) (SI B) (fa + fb)) fa fb k
              (start (SI A)) (start (SI B)) (le_n _) Ha Hb Hf) as [He Hx].
  split; [exact He|]. split; [exact Hx|].
  etransitivity; [apply (f_equal (@length value) Hx)|]. apply pairs_length.
Qed.

Lemma X11_zip_ends_with_the_shorter_witness :
  completes (ends (first 4 4 (nats 0))) = true
  /\ completes (ends (first 4 4 (take 3 (nats 5)))) = true
  /\ ends (first 4 4 (take 3 (nats 5))) = Finished
  /\ exists Z,
       zip (OLazy (nats 0)) (OLazy (take 3 (nats 5))) = Ok Z
       /\ ends (spread (4 + 4) Z) = Finished
       /\ elems (spread (4 + 4) Z)
          = pairs (elems (first 4 4 (nats 0))) (elems (first 4 4 (take 3 (nats 5))))
       /\ length (elems (spread (4 + 4) Z))
          = Nat.min (length (elems (first 4 4 (nats 0))))
                    (length (elems (first 4 4 (take 3 (nats 5))))).
Proof.
  split; [reflexivity|]. split; [reflexivity|]. split; [reflexivity|].
  apply (X11_zip_ends_with_the_shorter (nats 0) (take 3 (nats 5)) 4 4 4);
    [reflexivity | reflexivity | right; reflexivity].
Defined.

(** ** zipWith *)

Lemma map_pull_mute (g : Gen) (cb : callback) (fuel : nat) :
  mute cb ->
  forall (k : nat) (s : St g),
    pull (map_gen cb g) fuel k s
    = let o := pull g fuel k s in
      Out (log o) (List.map (fun x => snd (cb [x])) (elems o)) (ends o).
Proof.
  intros Hm. induction fuel as [|fuel IH]; intros [|k] s; simpl; try reflexivity.
  destruct (resume g s) as [l [v s'|s'| |e]]; simpl; rewrite ?IH; try reflexivity.
  pose proof (Hm [v]) as Hv. destruct (cb [v]) as [lc w]. simpl in Hv. subst lc.
  rewrite IH, app_nil_r. reflexivity.
Qed.

Lemma unpair_mute (f : list value -> value) : mute (unpair (quiet f)).
Proof.
  intros [|[| | |[|x [|y r]]] rest]; reflexivity.
Qed.

Lemma unpair_pairs (f : list value -> value) (xs ys : list value) :
  List.map (fun p => snd (unpair (quiet f) [p])) (pairs xs ys)
  = List.map (fun xy => f [fst xy; snd xy]) (combine xs ys).
Proof.
  unfold pairs. rewrite map_map. reflexivity.
Qed.

(** X12. When two sequences deliver [k] elements each, zipWith(f, a, b)
    delivers [k] elements, the values of [f] on the elements at the same
    positions, [f] being called with two arguments; its tag is true only when
    both tags are. *)
Theorem X12_zipWith (A B : Lazy) (f : list value -> value) (fa fb k : nat) :
  ends (first fa k A) = Suspended ->
  ends (first fb k B) = Suspended ->
  exists W,
    zipWith (quiet f) (OLazy A) (OLazy B) = Ok W
    /\ infinite W = (infinite A && infinite B)%bool
    /\ ends (first (fa + fb) k W) = Suspended
    /\ elems (first (fa + fb) k W)
       = List.map (fun xy => f [fst xy; snd xy])
           (combine (elems (first fa k A)) (elems (first fb k B))).
Proof.
  intros Ha Hb. eexists. split; [reflexivity|]. split.
  - simpl. destruct (infinite A), (infinite B); reflexivity.
  - destruct (proj1 (zip_loop_pairs (SI A) (SI B) (fa + fb)) fa fb k
                (start (SI A)) (start (SI B)) (le_n _) Ha Hb) as [He Hx].
    pose proof (map_pull_mute (zip_loop (SI A) (SI B)) (unpair (quiet f)) (fa + fb)
                  (unpair_mute f) k (ZA (start (SI A)) (start (SI B)))) as Hm.
    cbv zeta in Hm. split.
    + etransitivity; [exact (f_equal ends Hm)|]. exact He.
    + etransitivity; [exact (f_equal elems Hm)|]. simpl elems.
      etransitivity; [|apply unpair_pairs]. f_equal. exact Hx.
Qed.

Lemma X12_zipWith_witness :
  ends (first 3 3 (nats 0)) = Suspended
  /\ ends (first 3 3 (nats 10)) = Suspended
  /\ exists W,
       zipWith (quiet (fun args => snd (TestJs.sum args))) (OLazy (nats 0)) (OLazy (nats 10))
       = Ok W
       /\ infinite W = true
       /\ first (3 + 3) 3 W = Out [] [VNum 10; VNum 12; VNum 14] Suspended.
Proof.
  split; [reflexivity|]. split; [reflexivity|].
  destruct (X12_zipWith (nats 0) (nats 10) (fun args => snd (TestJs.sum args)) 3 3 3
              eq_refl eq_refl) as (W & HW & Ht & He & Hx).
  exists W. split; [exact HW|]. split; [exact Ht|].
  injection HW as <-. reflexivity.
Defined.

(** ** from and lazy *)

Lemma emit_nothing (o : outcome) : emit [] [] o = o.
Proof. destruct o; reflexivity. Qed.

Section Delegate.

Variable f : unit -> result obj.

Lemma delegate_rest_drain (fuel : nat) :
  forall s : St (body_of f),
    drain (delegate f) fuel (Some s) = drain (body_of f) fuel s.
Proof.
  induction fuel as [|fuel IH]; intros s; simpl; try reflexivity.
  change (match f tt with Ok x => iterate x | Err e => throwing e end)
    with (body_of f).
  destruct (resume (body_of f) s) as [l [v s'|s'| |e]]; simpl; rewrite ?IH; reflexivity.
Qed.

Lemma delegate_rest_pull (fuel : nat) :
  forall (k : nat) (s : St (body_of f)),
    pull (delegate f) fuel k (Some s) = pull (body_of f) fuel k s.
Proof.
  induction fuel as [|fuel IH]; intros [|k] s; simpl; try reflexivity.
  change (match f tt with Ok x => iterate x | Err e => throwing e end)
    with (body_of f).
  destruct (resume (body_of f) s) as [l [v s'|s'| |e]]; simpl; rewrite ?IH; reflexivity.
Qed.

Lemma delegate_drain (fuel : nat) :
  drain (delegate f) (S fuel) None = drain (body_of f) fuel (start (body_of f)).
Proof.
  simpl.
  change (match f tt with Ok x => iterate x | Err e => throwing e end)
    with (body_of f).
  rewrite delegate_rest_drain. apply emit_nothing.
Qed.

Lemma delegate_pull (fuel k : nat) :
  pull (delegate f) (S fuel) (S k) None = pull (body_of f) fuel (S k) (start (body_of f)).
Proof.
  simpl.
  change (match f tt with Ok x => iterate x | Err e => throwing e end)
    with (body_of f).
  rewrite delegate_rest_pull. apply emit_nothing.
Qed.

End Delegate.

(** X13. Lazy.from(f, infinite) with something that is not a function is a
    TypeError.  With a function it returns a sequence whose tag is the second
    argument, false when there is none, whatever [f] returns; a cursor over it
    calls [f] on its first advance and goes on as a cursor over what [f]
    returned: one step later it has the same elements, log and end.  When [f]
    throws, or returns something that is not iterable, the first advance
    raises that error, resp. a TypeError. *)
Theorem X13_from (o : option bool) (fuel k : nat) :
  from None o = Err TypeError
  /\ (forall x : obj,
        exists L, from (Some (fun _ => Ok x)) o = Ok L
                  /\ infinite L = match o with Some t => t | None => false end
                  /\ spread (S fuel) L = drain (iterate x) fuel (start (iterate x))
                  /\ first (S fuel) (S k) L
                     = pull (iterate x) fuel (S k) (start (iterate x)))
  /\ (forall e : error,
        exists L, from (Some (fun _ => Err e)) o = Ok L
                  /\ first (2 + fuel) (S k) L = Out [] [] (Raised e))
  /\ (forall z : Z,
        exists L, from (Some (fun _ => Ok (OVal (VNum z)))) o = Ok L
                  /\ first (2 + fuel) (S k) L = Out [] [] (Raised TypeError)).
Proof.
  split; [reflexivity|]. split; [|split].
  - intros x. eexists. split; [reflexivity|]. split; [reflexivity|]. split.
    + apply (delegate_drain (fun _ => Ok x) fuel).
    + apply (delegate_pull (fun _ => Ok x) fuel k).
  - intros e. eexists. split; reflexivity.
  - intros z. eexists. split; reflexivity.
Qed.

(** X14. Lazy.lazy run on a receiver returns a sequence tagged false, also
    when the receiver is a sequence tagged infinite; a cursor over it is, one
    step later, a cursor over the receiver.  On a receiver without
    [Symbol.iterator] the first advance raises a TypeError. *)
Theorem X14_lazy (this : obj) (fuel k : nat) :
  infinite (lazy this) = false
  /\ spread (S fuel) (lazy this) = drain (iterate this) fuel (start (iterate this))
  /\ first (S fuel) (S k) (lazy this)
     = pull (iterate this) fuel (S k) (start (iterate this))
  /\ (get_SI this = None ->
      first (2 + fuel) (S k) (lazy this) = Out [] [] (Raised TypeError)).
Proof.
  split; [reflexivity|]. split; [|split].
  - apply (delegate_drain (fun _ => Ok this) fuel).
  - apply (delegate_pull (fun _ => Ok this) fuel k).
  - intros H.
    etransitivity; [exact (delegate_pull (fun _ => Ok this) (S fuel) k)|].
    assert (E : iterate this = throwing TypeError)
      by (unfold iterate; rewrite H; reflexivity).
    change (pull (iterate this) (S fuel) (S k) (start (iterate this))
            = Out [] [] (Raised TypeError)).
    rewrite E. reflexivity.
Qed.

Lemma X14_lazy_witness :
  get_SI (OVal (VBool true)) = None
  /\ first (2 + 0) 1 (lazy (OVal (VBool true))) = Out [] [] (Raised TypeError)
  /\ infinite (lazy (OLazy (nats 0))) = false
  /\ first 3 2 (lazy (OLazy (nats 0))) = Out [] [VNum 0; VNum 1] Suspended.
Proof.
  split; [reflexivity|].
  split; [apply (proj2 (proj2 (proj2 (X14_lazy (OVal (VBool true)) 0 0)))); reflexivity|].
  split; [apply (proj1 (X14_lazy (OLazy (nats 0)) 0 0))|].
  apply (proj1 (proj2 (proj2 (X14_lazy (OLazy (nats 0)) 2 1)))).
Defined.

(** ** naturals *)

Lemma naturals_pull (n : Z) (k : nat) :
  forall i : Z, pull (naturals_gen n) k k i = Out [] (upfrom i k) Suspended.
Proof.
  induction k as [|k IH]; intros i; simpl; try reflexivity.
  rewrite IH. reflexivity.
Qed.

Lemma naturals_drain (n : Z) (fuel : nat) :
  forall i : Z, drain (naturals_gen n) fuel i = Out [] (upfrom i fuel) OutOfFuel.
Proof.
  induction fuel as [|fuel IH]; intros i; simpl; try reflexivity.
  rewrite IH. reflexivity.
Qed.

(** X15. Lazy.naturals(n) raises a RangeError for a negative number and a
    TypeError for a boolean or an array; without argument it is
    Lazy.naturals(0).  For n >= 0 it returns a sequence tagged infinite that
    delivers n, n + 1, ..., n + k - 1 when asked for [k] elements, one step
    for each (as long as these numbers stay below 2^53), and whose spread no
    bound on the steps lets finish. *)
Theorem X15_naturals :
  (forall n : Z, n < 0 -> naturals (VNum n) = Err RangeError)
  /\ (forall b : bool, naturals (VBool b) = Err TypeError)
  /\ (forall l : list value, naturals (VArr l) = Err TypeError)
  /\ naturals VUndef = naturals (VNum 0)
  /\ (forall n : Z, 0 <= n ->
        exists L, naturals (VNum n) = Ok L
                  /\ infinite L = true
                  /\ (forall k : nat,
                        n + Z.of_nat k <= max_exact ->
                        first k k L = Out [] (upfrom n k) Suspended)
                  /\ (forall fuel : nat, ends (spread fuel L) = OutOfFuel)).
Proof.
  split; [|split; [|split; [|split]]]; try reflexivity.
  - intros n Hn. unfold naturals.
    destruct (Z.ltb_spec n 0); [reflexivity | lia].
  - intros n Hn. exists (nats n). split; [apply naturals_nats; exact Hn|].
    split; [reflexivity|]. split; intros.
    + apply (naturals_pull n k n).
    + unfold spread. simpl. rewrite (naturals_drain n fuel n). reflexivity.
Qed.

Lemma X15_naturals_witness :
  (-1 < 0 /\ naturals (VNum (-1)) = Err RangeError)
  /\ (0 <= 4
      /\ exists L, naturals (VNum 4) = Ok L
                   /\ infinite L = true
                   /\ (4 + Z.of_nat 3 <= max_exact
                       /\ first 3 3 L = Out [] [VNum 4; VNum 5; VNum 6] Suspended)
                   /\ (forall fuel : nat, ends (spread fuel L) = OutOfFuel)).
Proof.
  split.
  - split; [lia|]. apply (proj1 X15_naturals (-1)). lia.
  - split; [lia|].
    destruct (proj2 (proj2 (proj2 (proj2 X15_naturals))) 4 ltac:(lia))
      as (L & HL & Ht & Hk & Hs).
    exists L. split; [exact HL|]. split; [exact Ht|]. split; [|exact Hs].
    assert (Hb : 4 + Z.of_nat 3 <= max_exact) by (vm_compute; discriminate).
    split; [exact Hb | exact (Hk 3%nat Hb)].
Defined.

(** ** A sequence without end that is not tagged *)

Lemma wrapped_nats_spread (n : Z) (fuel : nat) :
  spread fuel (wrapped_nats n) = Out [] (upfrom n (pred fuel)) OutOfFuel.
Proof.
  destruct fuel as [|fuel]; [reflexivity|].
  etransitivity; [exact (delegate_drain (fun _ => Ok (OLazy (nats n))) fuel)|].
  apply (naturals_drain n fuel n).
Qed.

Lemma wrapped_nats_head (n : Z) (fuel : nat) :
  head fuel (wrapped_nats n) = ([], NoFuel)
  \/ head fuel (wrapped_nats n) = ([], Return (VNum n)).
Proof.
  destruct fuel as [|[|[|fuel]]]; [left|left|right|right]; reflexivity.
Qed.

(** X16. Lazy.from(() => Lazy.naturals(n)) returns a sequence tagged false,
    although it has no end.  The test of the tag in forEach, reduce and length
    lets it through, and none of the three returns or raises, whatever the
    bound on the steps. *)
Theorem X16_untagged_infinite (n : Z) (f : list value -> value) (fuel : nat) :
  from (Some (fun _ => Ok (OLazy (nats n)))) None = Ok (wrapped_nats n)
  /\ infinite (wrapped_nats n) = false
  /\ forEach fuel (Fn (quiet f)) (wrapped_nats n) = ([], NoFuel)
  /\ snd (reduce fuel (Fn (quiet f)) (wrapped_nats n)) = NoFuel
  /\ get_length fuel (wrapped_nats n) = ([], Runs_out).
Proof.
  split; [reflexivity|]. split; [reflexivity|].
  pose proof (wrapped_nats_spread n fuel) as Hs. unfold spread in Hs.
  split; [|split].
  - unfold forEach. simpl infinite. cbv iota.
    rewrite (forEach_loop_drain (SI (wrapped_nats n)) f fuel). cbv zeta.
    rewrite Hs. reflexivity.
  - unfold reduce. simpl infinite. cbv iota.
    destruct (wrapped_nats_head n fuel) as [-> | ->]; [reflexivity|].
    unfold tail, drop. simpl SI.
    pose proof (reduce_loop_drop (SI (wrapped_nats n)) 1 f fuel (VNum n) O
                  (start (SI (wrapped_nats n)))) as Hr.
    cbv zeta in Hr. rewrite Hs in Hr. cbv zeta.
    set (R := reduce_loop _ _ _ _ _).
    match type of Hr with _ = ?rhs => assert (ER : R = rhs) by exact Hr end.
    rewrite ER. reflexivity.
  - unfold get_length. simpl infinite. cbv iota.
    rewrite (length_loop_drain (SI (wrapped_nats n)) fuel). cbv zeta.
    rewrite Hs. reflexivity.
Qed.

(** * The variant of the class in src/test.js *)

Section VariantCalls.

Variable g : Gen.
Variable f : list value -> value.
Hypothesis g_silent : silent g.

Lemma variant_forEach_loop (fuel : nat) :
  forall (i : nat) (s : St g),
    Variant.forEach_loop g fuel (Fn (watch f)) i s
    = let o := drain g fuel s in
      (List.map Called (indexed i (elems o)), finish VUndef (ends o)).
Proof.
  induction fuel as [|fuel IH]; intros i s; simpl; try reflexivity.
  destruct (silent_step g s g_silent) as [r ->].
  destruct r as [v s'|s'| |e]; simpl; rewrite ?IH; reflexivity.
Qed.

Variable n : Z.

Lemma variant_reduce_loop (fuel : nat) :
  forall (prev : value) (j i : nat) (s : St g),
    Variant.reduce_loop (Variant.drop_gen n g) fuel (watch f) prev j (i, s)
    = let o := drain g fuel s in
      let ys := skipn (Z.to_nat (n - Z.of_nat i)) (elems o) in
      (List.map Called (fold_args f prev j ys),
       finish (fold_value f prev j ys) (ends o)).
Proof.
  induction fuel as [|fuel IH]; intros prev j i s; simpl.
  - rewrite skipn_nil. reflexivity.
  - destruct (silent_step g s g_silent) as [r ->].
    destruct r as [v s'|s'| |e]; simpl; rewrite ?skipn_nil; try reflexivity.
    + destruct (Z.ltb_spec (Z.of_nat i) n) as [Hlt|Hge]; simpl; rewrite IH; cbv zeta.
      * replace (Z.to_nat (n - Z.of_nat i))
          with (S (Z.to_nat (n - Z.of_nat (S i)))) by lia.
        reflexivity.
      * replace (Z.to_nat (n - Z.of_nat i)) with O by lia.
        replace (Z.to_nat (n - Z.of_nat (S i))) with O by lia.
        reflexivity.
    + rewrite IH. reflexivity.
Qed.

End VariantCalls.

(** X17. In the variant of the class, over a sequence whose cursor writes
    nothing and that delivers [x] and then [xs]: forEach calls its callback on
    each element with the position of the element, counted from 0; reduce
    starts from [x] and calls its function on the accumulator, the next
    element and an index that counts the calls from 0, so that the element at
    position i + 1 comes with index i.  Both return when the sequence ends. *)
Theorem X17_variant_indexes (g : Gen) (f : list value -> value) (fuel : nat)
    (x : value) (xs : list value) :
  silent g ->
  elems (drain g fuel (start g)) = x :: xs ->
  Variant.forEach fuel (Fn (watch f)) g
  = (List.map Called (indexed 0 (x :: xs)),
     finish VUndef (ends (drain g fuel (start g))))
  /\ Variant.reduce fuel (Fn (watch f)) g
     = (List.map Called (fold_args f x 0 xs),
        finish (fold_value f x 0 xs) (ends (drain g fuel (start g)))).
Proof.
  intros Hs H. split.
  - unfold Variant.forEach. rewrite (variant_forEach_loop g f Hs fuel). cbv zeta.
    rewrite H. reflexivity.
  - destruct (drain_first g fuel x xs (start g) H) as [He Hn].
    assert (Hl : log (pull g fuel 1 (start g)) = []).
    { pose proof (spy_pull g fuel Hs 1 (start g)) as Hp. clear - Hs.
      generalize (start g). generalize 1%nat.
      induction fuel as [|fuel IH]; intros [|k] s; simpl; try reflexivity.
      destruct (silent_step g s Hs) as [r ->].
      destruct r as [v s'|s'| |e]; simpl; try reflexivity; apply IH. }
    assert (Hh : Variant.head fuel g = ([], Return x)).
    { unfold Variant.head. cbv zeta.
      set (P := pull (Variant.take_gen 1 g) fuel 1 _).
      assert (EP : P = pull g fuel 1 (start g))
        by (apply (take_pull g 1 fuel 1 O (start g)); simpl; lia).
      rewrite EP, Hn, He, Hl. reflexivity. }
    unfold Variant.reduce. rewrite Hh.
    pose proof (variant_reduce_loop g f Hs 1 fuel x O O (start g)) as Hr.
    cbv zeta in Hr. rewrite H in Hr.
    cbv zeta. set (R := Variant.reduce_loop _ _ _ _ _ _).
    match type of Hr with _ = ?rhs => assert (ER : R = rhs) by exact Hr end.
    rewrite ER. reflexivity.
Qed.

Lemma X17_variant_indexes_witness :
  silent (SI (take 3 (nats 5)))
  /\ elems (drain (SI (take 3 (nats 5))) 4 (start (SI (take 3 (nats 5)))))
     = [VNum 5; VNum 6; VNum 7]
  /\ Variant.forEach 4 (Fn (watch second_argument)) (SI (take 3 (nats 5)))
     = ([Called [VNum 5; VNum 0]; Called [VNum 6; VNum 1]; Called [VNum 7; VNum 2]],
        Return VUndef)
  /\ Variant.reduce 4 (Fn (watch second_argument)) (SI (take 3 (nats 5)))
     = ([Called [VNum 5; VNum 6; VNum 0]; Called [VNum 6; VNum 7; VNum 1]],
        Return (VNum 7)).
Proof.
  split; [apply take_nats_silent|]. split; [reflexivity|].
  apply (X17_variant_indexes (SI (take 3 (nats 5))) second_argument 4
           (VNum 5) [VNum 6; VNum 7] (take_nats_silent 3 5) eq_refl).
Defined.

(** X18. The variant has no tag and no test before a traversal: over its
    naturals(n), n >= 0, neither forEach nor reduce returns or raises,
    whatever the bound on the steps, and under a bound of [fuel] steps forEach
    has called its callback [fuel] times.  As long as the numbers stay below
    2^53 these calls are on n, n + 1, ... with the indexes 0, 1, ... *)
Theorem X18_variant_forEach_unguarded (n : Z) (f : list value -> value) :
  0 <= n ->
  exists G,
    Variant.naturals (VNum n) = Ok G
    /\ (forall fuel : nat,
          snd (Variant.forEach fuel (Fn (watch f)) G) = NoFuel
          /\ length (fst (Variant.forEach fuel (Fn (watch f)) G)) = fuel
          /\ snd (Variant.reduce fuel (Fn (watch f)) G) = NoFuel)
    /\ (forall fuel : nat,
          n + Z.of_nat fuel <= max_exact ->
          Variant.forEach fuel (Fn (watch f)) G
          = (List.map Called (indexed 0 (upfrom n fuel)), NoFuel)).
Proof.
  intros Hn. exists (Variant.naturals_gen n). split.
  - unfold Variant.naturals. destruct (Z.ltb_spec n 0); [lia | reflexivity].
  - assert (Hs : silent (Variant.naturals_gen n)) by (intros s; reflexivity).
    assert (Hd : forall fuel' i,
               drain (Variant.naturals_gen n) fuel' i = Out [] (upfrom i fuel') OutOfFuel).
    { induction fuel' as [|fuel' IH]; intros i; simpl; try reflexivity.
      rewrite IH. reflexivity. }
    assert (Hf : forall fuel : nat,
               Variant.forEach fuel (Fn (watch f)) (Variant.naturals_gen n)
               = (List.map Called (indexed 0 (upfrom n fuel)), NoFuel)).
    { intros fuel. unfold Variant.forEach.
      rewrite (variant_forEach_loop (Variant.naturals_gen n) f Hs fuel). cbv zeta.
      simpl start. rewrite Hd. reflexivity. }
    assert (Hlen : forall (k i : nat) (z : Z), length (indexed i (upfrom z k)) = k).
    { induction k as [|k IH]; intros i z; simpl; [reflexivity|].
      rewrite IH. reflexivity. }
    split.
    + intros fuel. split; [rewrite Hf; reflexivity|]. split.
      * rewrite Hf. simpl fst. rewrite length_map. apply Hlen.
      * unfold Variant.reduce.
        destruct (Variant.head fuel (Variant.naturals_gen n)) as [lh [v|e|]] eqn:Eh;
          try reflexivity.
        -- pose proof (variant_reduce_loop (Variant.naturals_gen n) f Hs 1 fuel v O O n)
             as Hr.
           cbv zeta in Hr. rewrite Hd in Hr.
           cbv zeta. set (R := Variant.reduce_loop _ _ _ _ _ _).
           match type of Hr with _ = ?rhs => assert (ER : R = rhs) by exact Hr end.
           rewrite ER. reflexivity.
        -- exfalso. destruct fuel as [|[|fuel]]; simpl in Eh; discriminate.
    + intros fuel _. apply Hf.
Qed.

Lemma X18_variant_forEach_unguarded_witness :
  0 <= 3
  /\ exists G,
       Variant.naturals (VNum 3) = Ok G
       /\ (forall fuel : nat,
             snd (Variant.forEach fuel (Fn (watch second_argument)) G) = NoFuel
             /\ length (fst (Variant.forEach fuel (Fn (watch second_argument)) G)) = fuel
             /\ snd (Variant.reduce fuel (Fn (watch second_argument)) G) = NoFuel)
       /\ (3 + Z.of_nat 2 <= max_exact
           /\ Variant.forEach 2 (Fn (watch second_argument)) G
              = ([Called [VNum 3; VNum 0]; Called [VNum 4; VNum 1]], NoFuel)).
Proof.
  split; [lia|].
  destruct (X18_variant_forEach_unguarded 3 second_argument ltac:(lia))
    as (G & HG & Hall & Hb).
  exists G. split; [exact HG|]. split; [exact Hall|].
  assert (B : 3 + Z.of_nat 2 <= max_exact) by (vm_compute; discriminate).
  split; [exact B|].
  injection HG as <-. exact (Hb 2%nat B).
Defined.

(** * The sieves of src/test.js and src/primes.js *)

(** X19. The sieve of Eratosthenes over naturals(2), written with a generator
    function ([primes] of test.js), with Lazy.from ([primes2]) and in
    primes.js, delivers the prime numbers in order: take(10) of the first two
    spreads to 2, 3, 5, ..., 29 and take(30) of the third to the first thirty
    primes, as soon as 12 (resp. 32) calls of sieve may be unfolded and every
    traversal may take 40 (resp. 200) steps.  The first two are tagged
    infinite; the sieve of primes.js, which gives cons no tag, is tagged
    false. *)
Theorem X19_sieves (depth fuel : nat) :
  match TestJs.primes (12 + depth) (40 + fuel) with
  | Ok p => infinite p = true
            /\ spread (40 + fuel) (take 10 p) = Out [] (firstn 10 thirty_primes) Finished
  | Err _ => False
  end
  /\ match TestJs.primes2 (12 + depth) (40 + fuel) with
     | Returns p => infinite p = true
                    /\ spread (40 + fuel) (take 10 p)
                       = Out [] (firstn 10 thirty_primes) Finished
     | _ => False
     end
  /\ match PrimesJs.primes (32 + depth) (200 + fuel) with
     | Returns p => infinite p = false
                    /\ spread (200 + fuel) (take 30 p) = Out [] thirty_primes Finished
     | _ => False
     end.
Proof.
  split; [|split]; vm_compute; split; reflexivity.
Qed.

(** * The Fibonacci sequences of src/test.js *)

Lemma cons_pull_first (a : value) (b : obj) (fuel k : nat) :
  pull (cons_gen a b) (S fuel) (S k) None
  = emit [] [a] (pull (iterate b) fuel k (start (iterate b))).
Proof.
  simpl. rewrite cons_rest_pull. reflexivity.
Qed.

Lemma fibs_f_pull (k : nat) :
  forall (d : nat) (a b : Z),
    (k <= d)%nat ->
    pull (TestJs.fibs_f d a b) (2 * k) k (start (TestJs.fibs_f d a b))
    = Out [] (fibseq a b k) Suspended.
Proof.
  induction k as [|k IH]; intros d a b Hd.
  - destruct d; reflexivity.
  - destruct d as [|d]; [lia|].
    replace (2 * S k)%nat with (S (S (2 * k))) by lia.
    etransitivity;
      [exact (delegate_pull
                (fun _ => TestJs.as_obj
                            (cons (VNum a) (OGen (TestJs.fibs_f d b (a + b))) None))
                (S (2 * k)) k)|].
    etransitivity;
      [exact (cons_pull_first (VNum a) (OGen (TestJs.fibs_f d b (a + b))) (2 * k) k)|].
    change (emit [] [VNum a]
              (pull (TestJs.fibs_f d b (a + b)) (2 * k) k
                 (start (TestJs.fibs_f d b (a + b))))
            = Out [] (fibseq a b (S k)) Suspended).
    rewrite IH by lia. reflexivity.
Qed.

Lemma fibs2_f_pull (k : nat) :
  forall (d : nat) (a b : Z),
    (k <= d)%nat ->
    match TestJs.fibs2_f d a b with
    | Ok L => first (2 * k) k L = Out [] (fibseq a b k) Suspended
    | Err _ => False
    end.
Proof.
  induction k as [|k IH]; intros d a b Hd.
  - destruct d; reflexivity.
  - destruct d as [|d]; [lia|].
    replace (2 * S k)%nat with (S (S (2 * k))) by lia.
    change (pull (cons_gen (VNum a)
                    (OLazy (new_Lazy
                              (delegate (fun _ => TestJs.as_obj
                                                    (TestJs.fibs2_f d b (a + b))))
                              None)))
              (S (S (2 * k))) (S k) None
            = Out [] (fibseq a b (S k)) Suspended).
    rewrite cons_pull_first.
    destruct k as [|k]; [reflexivity|].
    specialize (IH d b (a + b) ltac:(lia)).
    etransitivity;
      [apply f_equal;
       exact (delegate_pull
                (fun _ => TestJs.as_obj (TestJs.fibs2_f d b (a + b))) (2 * S k) k)|].
    cbv zeta.
    destruct (TestJs.fibs2_f d b (a + b)) as [L'|e]; [|contradiction].
    change (emit [] [VNum a] (first (2 * S k) (S k) L')
            = Out [] (fibseq a b (S (S k))) Suspended).
    rewrite IH. reflexivity.
Qed.

(** X20. Asked for [k] elements, both Fibonacci sequences of test.js, [fibs]
    (a generator function around Lazy.cons) and [fibs2] (Lazy.cons around
    Lazy.from), deliver 1, 1, 2, 3, 5, ...: each element is the sum of the two
    before it.  Two steps of the cursor are needed for each element, and the
    recursive function is entered once for each; both sequences are tagged
    infinite.  ([k] <= 78 keeps the numbers below 2^53.) *)
Theorem X20_fibonacci (k depth : nat) :
  (k < depth)%nat ->
  (k <= 78)%nat ->
  (exists L, TestJs.fibs depth = Ok L
             /\ infinite L = true
             /\ first (1 + 2 * k) k L = Out [] (fibseq 1 1 k) Suspended)
  /\ (exists L, TestJs.fibs2 depth = Ok L
                /\ infinite L = true
                /\ first (2 * k) k L = Out [] (fibseq 1 1 k) Suspended).
Proof.
  intros Hd _. split.
  - eexists. split; [reflexivity|]. split; [reflexivity|].
    destruct k as [|k]; [reflexivity|].
    etransitivity;
      [exact (delegate_pull (fun _ => Ok (OGen (TestJs.fibs_f depth 1 1))) (2 * S k) k)|].
    apply (fibs_f_pull (S k) depth 1 1). lia.
  - destruct depth as [|d]; [lia|].
    pose proof (fibs2_f_pull k (S d) 1 1 ltac:(lia)) as H.
    unfold TestJs.fibs2.
    destruct (TestJs.fibs2_f (S d) 1 1) as [L|e] eqn:E; [|contradiction].
    exists L. split; [reflexivity|]. split; [|exact H].
    injection E as <-. reflexivity.
Qed.

Lemma X20_fibonacci_witness :
  (6 < 7)%nat /\ (6 <= 78)%nat
  /\ (exists L, TestJs.fibs 7 = Ok L
                /\ infinite L = true
                /\ first (1 + 2 * 6) 6 L
                   = Out [] [VNum 1; VNum 1; VNum 2; VNum 3; VNum 5; VNum 8] Suspended)
  /\ (exists L, TestJs.fibs2 7 = Ok L
                /\ infinite L = true
                /\ first (2 * 6) 6 L
                   = Out [] [VNum 1; VNum 1; VNum 2; VNum 3; VNum 5; VNum 8] Suspended).
Proof.
  split; [lia|]. split; [lia|].
  apply (X20_fibonacci 6 7); lia.
Defined.

(** * take around map, and map around take *)

Lemma map_pull_watch (g : Gen) (f : list value -> value) (fuel : nat) :
  silent g ->
  forall (k : nat) (s : St g),
    pull (map_gen (watch f) g) fuel k s
    = let o := pull g fuel k s in
      Out (List.map (fun x => Called [x]) (elems o))
          (List.map (fun x => f [x]) (elems o)) (ends o).
Proof.
  intros Hs. induction fuel as [|fuel IH]; intros [|k] s; simpl; try reflexivity.
  destruct (silent_step g s Hs) as [r ->].
  destruct r as [v s'|s'| |e]; simpl; rewrite ?IH; reflexivity.
Qed.

Lemma take_silent (g : Gen) (n : Z) : silent g -> silent (take_gen n g).
Proof.
  intros Hs [i s]. simpl. destruct (silent_step g s Hs) as [r ->].
  destruct r as [v s'|s'| |e]; simpl; try reflexivity.
  destruct (Z.of_nat i <? n); reflexivity.
Qed.

Lemma silent_pull_log (g : Gen) (fuel : nat) :
  silent g -> forall (k : nat) (s : St g), log (pull g fuel k s) = [].
Proof.
  intros Hs. induction fuel as [|fuel IH]; intros [|k] s; simpl; try reflexivity.
  destruct (silent_step g s Hs) as [r ->].
  destruct r as [v s'|s'| |e]; simpl; try reflexivity; apply IH.
Qed.

(** X21. Over a sequence whose cursor writes nothing and that delivers more
    than [n] elements, map(f).take(n) and take(n).map(f) spread to the same
    [n] elements, the values of [f] on the first [n] elements.  They do not
    call [f] equally often: take(n) around map(f) calls [f] on [n + 1]
    elements and throws the last result away, map(f) around take(n) calls [f]
    on [n] elements. *)
Theorem X21_take_and_map (L : Lazy) (f : list value -> value) (n fuel : nat) :
  silent (SI L) ->
  ends (first fuel (S n) L) = Suspended ->
  let xs := elems (first fuel (S n) L) in
  length xs = S n
  /\ (exists M, map (Fn (watch f)) L = Ok M
                /\ spread fuel (take (Z.of_nat n) M)
                   = Out (List.map (fun x => Called [x]) xs)
                         (List.map (fun x => f [x]) (firstn n xs)) Finished)
  /\ (exists M, map (Fn (watch f)) (take (Z.of_nat n) L) = Ok M
                /\ spread fuel M
                   = Out (List.map (fun x => Called [x]) (firstn n xs))
                         (List.map (fun x => f [x]) (firstn n xs)) Finished).
Proof.
  intros Hs H xs. subst xs. unfold first in *.
  split; [apply pull_length; exact H|]. split.
  - eexists. split; [reflexivity|].
    pose proof (take_drain (map_gen (watch f) (SI L)) (Z.of_nat n) fuel n O
                  (start (SI L)) ltac:(lia)) as E.
    cbv zeta in E. rewrite (map_pull_watch (SI L) f fuel Hs) in E. cbv zeta in E.
    simpl log in E. simpl elems in E. simpl ends in E.
    rewrite H in E. rewrite firstn_map in E. exact E.
  - eexists. split; [reflexivity|].
    pose proof (map_drain (take_gen (Z.of_nat n) (SI L)) f
                  (take_silent (SI L) (Z.of_nat n) Hs) fuel (O, start (SI L))) as E.
    cbv zeta in E.
    pose proof (take_drain (SI L) (Z.of_nat n) fuel n O (start (SI L)) ltac:(lia)) as T.
    cbv zeta in T. rewrite H in T.
    rewrite (silent_pull_log (SI L) fuel Hs) in T.
    set (D := drain (take_gen (Z.of_nat n) (SI L)) fuel (O, start (SI L))) in *.
    rewrite T in E. exact E.
Qed.

Lemma X21_take_and_map_witness :
  silent (SI (nats 0))
  /\ ends (first 3 (S 2) (nats 0)) = Suspended
  /\ (exists M, map (Fn (watch second_argument)) (nats 0) = Ok M
                /\ spread 3 (take (Z.of_nat 2) M)
                   = Out [Called [VNum 0]; Called [VNum 1]; Called [VNum 2]]
                         [VUndef; VUndef] Finished)
  /\ (exists M, map (Fn (watch second_argument)) (take (Z.of_nat 2) (nats 0)) = Ok M
                /\ spread 3 M
                   = Out [Called [VNum 0]; Called [VNum 1]] [VUndef; VUndef] Finished).
Proof.
  split; [apply nats_silent|]. split; [reflexivity|].
  destruct (X21_take_and_map (nats 0) second_argument 2 3 (nats_silent 0) eq_refl)
    as (_ & H1 & H2).
  split; [exact H1 | exact H2].
Defined.
